(** * PharmaQuery: a shallow embedding of [rag_tutorials/rag_chain/app.py]

    The program is a retrieval-augmented question answering front end:
    uploaded PDF documents are written to a scratch file, loaded, cut into
    overlapping token chunks and added to a vector store ([add_to_db]);
    a query is answered by retrieving the five most similar chunks,
    joining their texts into a context block, rendering a fixed prompt and
    calling a generative model ([run_rag_chain]).

    The Python code threads three pieces of mutable state through its
    calls: the file system (the scratch file), the module-level vector
    store [db], and Streamlit's session state.  They are modelled as one
    record [World] passed through a state-and-exception monad in which a
    raised exception keeps every effect performed before it, as in Python.
    The collaborators that live outside the repository (PDF loader,
    tokenizer, embedding model, generative model) are section variables. *)

From stdpp Require Import base strings list gmap sorting.
From Stdlib Require Import ZArith.

Local Open Scope string_scope.
Local Open Scope list_scope.

(** ** Python strings *)

Module PyStr.

(** The line feed character, Python's ["\n"]. *)
Definition LF : string := String (Ascii.ascii_of_nat 10) EmptyString.

(** The double quote character, used inside the prompt template. *)
Definition DQ : string := String (Ascii.ascii_of_nat 34) EmptyString.

(** [sep.join(items)]: the separator is written before every item but
    the first. *)
Fixpoint join_rest (sep : string) (items : list string) : string :=
  match items with
  | [] => EmptyString
  | s :: rest => sep +:+ s +:+ join_rest sep rest
  end.

Definition join (sep : string) (items : list string) : string :=
  match items with
  | [] => EmptyString
  | s :: rest => s +:+ join_rest sep rest
  end.

(** Truthiness of a [str]: only the empty string is falsy. *)
Definition truthy (s : string) : bool :=
  match s with
  | EmptyString => false
  | String _ _ => true
  end.

(** [str.isspace()] on the ASCII range: space, tab, line feed, vertical
    tab, form feed, carriage return and the four separators 28..31. *)
Definition is_space (c : Ascii.ascii) : bool :=
  let n := Ascii.nat_of_ascii c in
  Nat.eqb n 32 || (Nat.leb 9 n && Nat.leb n 13) || (Nat.leb 28 n && Nat.leb n 31).

Fixpoint all_space (s : string) : bool :=
  match s with
  | EmptyString => true
  | String c rest => is_space c && all_space rest
  end.

(** A whitespace-only string: non-empty and made of whitespace. *)
Definition whitespace_only (s : string) : bool := truthy s && all_space s.

Definition starts_with_slash (s : string) : bool :=
  match s with
  | String c _ => Nat.eqb (Ascii.nat_of_ascii c) 47
  | EmptyString => false
  end.

Fixpoint ends_with_slash (s : string) : bool :=
  match s with
  | EmptyString => false
  | String c EmptyString => Nat.eqb (Ascii.nat_of_ascii c) 47
  | String _ rest => ends_with_slash rest
  end.

(** [os.path.join(a, b)] of [posixpath] for two components: an absolute
    [b] replaces [a]; otherwise one slash is put between them unless [a]
    is empty or already ends with one. *)
Definition os_path_join (a b : string) : string :=
  if starts_with_slash b then b
  else if negb (truthy a) || ends_with_slash a then a +:+ b
  else a +:+ "/" +:+ b.

(** [os.path.dirname(p)]: the text before the last slash, with trailing
    slashes removed unless it consists of slashes only. *)
Fixpoint head_upto_last_slash (p : list Ascii.ascii) : list Ascii.ascii :=
  match p with
  | [] => []
  | c :: rest =>
      if existsb (fun d => Nat.eqb (Ascii.nat_of_ascii d) 47) p
      then c :: head_upto_last_slash rest
      else []
  end.

Fixpoint rstrip_slashes_rev (r : list Ascii.ascii) : list Ascii.ascii :=
  match r with
  | [] => []
  | c :: rest => if Nat.eqb (Ascii.nat_of_ascii c) 47 then rstrip_slashes_rev rest else r
  end.

Definition os_path_dirname (p : string) : string :=
  let head := head_upto_last_slash (String.list_ascii_of_string p) in
  if forallb (fun d => Nat.eqb (Ascii.nat_of_ascii d) 47) head
  then String.string_of_list_ascii head
  else String.string_of_list_ascii (rev (rstrip_slashes_rev (rev head))).

End PyStr.

(** ** Data model *)

(** Tokens of the sentence-transformers tokenizer are vocabulary indices. *)
Definition Token : Type := Z.

(** An embedding vector.  Its components are kept as scaled integers: no
    property below looks inside a vector, only at the similarity score the
    store computes from two of them. *)
Definition Vec : Type := list Z.

(** The metadata dictionary PyPDFLoader attaches to every page. *)
Record Metadata := mkMetadata {
  source : string;
  page : nat;
}.

(** A langchain [Document]: a page of a PDF, or a chunk of one. *)
Record Document := mkDocument {
  page_content : string;
  metadata : Metadata;
}.

(** A Streamlit [UploadedFile]. *)
Record UploadedFile := mkUploadedFile {
  name : string;
  getbuffer : list Byte.byte;
}.

(** A record of the vector store. *)
Record IndexedRecord := mkIndexedRecord {
  rec_id : nat;
  rec_embedding : Vec;
  rec_doc : Document;
}.

(** What the page shows: [st.error], [st.warning], [st.success], [st.write]. *)
Inductive UiEvent :=
| StError (msg : string)
| StWarning (msg : string)
| StSuccess (msg : string)
| StWrite (msg : string).

(** Calls made to the two remote collaborators, in the order they happen. *)
Inductive Call :=
| EmbedCall (text : string)
| GenerateCall (prompt : string) (api_key : option string) (temperature : Z).

(** Failures of the generative model collaborator. *)
Inductive GenError :=
| CredentialError
| UpstreamError.

(** Python exceptions that can leave the functions of the program. *)
Inductive exn :=
| FileNotFoundError (path : string)
| LoadError (path : string)
| EmbeddingError (text : string)
| QueryError (text : string)
| ModelError (e : GenError).

(** ** The mutable world *)

Record World := mkWorld {
  fs : gmap string (list Byte.byte);
  dirs : gset string;
  db : list IndexedRecord;
  session_state : gmap string string;
  ui : list UiEvent;
  calls : list Call;
}.

Definition set_fs (f : gmap string (list Byte.byte)) (w : World) : World :=
  mkWorld f (dirs w) (db w) (session_state w) (ui w) (calls w).
Definition set_dirs (d : gset string) (w : World) : World :=
  mkWorld (fs w) d (db w) (session_state w) (ui w) (calls w).
Definition set_db (d : list IndexedRecord) (w : World) : World :=
  mkWorld (fs w) (dirs w) d (session_state w) (ui w) (calls w).
Definition set_session_state (s : gmap string string) (w : World) : World :=
  mkWorld (fs w) (dirs w) (db w) s (ui w) (calls w).
Definition set_ui (u : list UiEvent) (w : World) : World :=
  mkWorld (fs w) (dirs w) (db w) (session_state w) u (calls w).
Definition set_calls (c : list Call) (w : World) : World :=
  mkWorld (fs w) (dirs w) (db w) (session_state w) (ui w) c.

(** ** State and exceptions *)

Inductive Res (A : Type) :=
| Ok (a : A)
| Raise (e : exn).
Arguments Ok {A} a.
Arguments Raise {A} e.

Definition M (A : Type) : Type := World -> Res A * World.

Definition ret {A} (a : A) : M A := fun w => (Ok a, w).

Definition bind {A B} (m : M A) (k : A -> M B) : M B :=
  fun w =>
    match m w with
    | (Ok a, w') => k a w'
    | (Raise e, w') => (Raise e, w')
    end.

Definition gets {A} (f : World -> A) : M A := fun w => (Ok (f w), w).

Definition modify (f : World -> World) : M unit := fun w => (Ok tt, f w).

Declare Scope py_scope.
Delimit Scope py_scope with py.
Notation "'let*' x ':=' m 'in' k" := (bind m (fun x => k))
  (at level 10, x name, m at level 100, k at level 200) : py_scope.
Notation "m ;;; k" := (bind m (fun _ => k))
  (at level 200, k at level 200) : py_scope.
Local Open Scope py_scope.

(** A Python [for] loop over a list: the first exception ends it. *)
Fixpoint for_each {A} (body : A -> M unit) (items : list A) : M unit :=
  match items with
  | [] => ret tt
  | x :: rest => body x ;;; for_each body rest
  end.

(** ** What an operation may touch *)

(** [preserves proj m]: running [m] leaves the component [proj] of the
    world as it was, whether [m] returns or raises. *)
Definition preserves {A X} (proj : World -> X) (m : M A) : Prop :=
  forall w, proj (snd (m w)) = proj w.

(** [grows m]: running [m] only appends records to the store. *)
Definition grows {A} (m : M A) : Prop :=
  forall w, db w `prefix_of` db (snd (m w)).

(** ** Streamlit and the file system *)

Definition st_error (msg : string) : M unit :=
  modify (fun w => set_ui (ui w ++ [StError msg]) w).
Definition st_warning (msg : string) : M unit :=
  modify (fun w => set_ui (ui w ++ [StWarning msg]) w).
Definition st_success (msg : string) : M unit :=
  modify (fun w => set_ui (ui w ++ [StSuccess msg]) w).
Definition st_write (msg : string) : M unit :=
  modify (fun w => set_ui (ui w ++ [StWrite msg]) w).

(** [os.makedirs(d, exist_ok=True)]. *)
Definition os_makedirs (d : string) : M unit :=
  modify (fun w => set_dirs ({[d]} ∪ dirs w) w).

(** [with open(path, "wb") as f: f.write(data)]: creates or truncates. *)
Definition write_file (path : string) (data : list Byte.byte) : M unit :=
  modify (fun w => set_fs (<[path := data]> (fs w)) w).

(** [os.remove(path)]: raises when there is no such file. *)
Definition os_remove (path : string) : M unit :=
  fun w =>
    match fs w !! path with
    | Some _ => (Ok tt, set_fs (delete path (fs w)) w)
    | None => (Raise (FileNotFoundError path), w)
    end.

(** ** [format_docs] *)

Definition format_docs (docs : list Document) : string :=
  PyStr.join (PyStr.LF +:+ PyStr.LF) (map page_content docs).

(** ** The token splitter *)

(** Modelled from the spec: the class SentenceTransformersTokenTextSplitter
    belongs to a library outside the repository; only its construction
    with [chunk_size=100], [chunk_overlap=50] and the call to
    [create_documents] are in [add_to_db].  The walk follows section 4.1:
    emit the next [chunk_size] tokens, stop when the page's tokens are
    exhausted, otherwise back up by [chunk_overlap] tokens and start the
    next chunk there.  A tail shorter than [chunk_size] is emitted as it
    is.  The walk returns [None] when it runs out of fuel. *)
Fixpoint walk_tokens (fuel chunk_size chunk_overlap : nat) (toks : list Token)
  : option (list (list Token)) :=
  match fuel with
  | O => None
  | S fuel' =>
      if decide (length toks <= chunk_size)
      then Some [take chunk_size toks]
      else
        match walk_tokens fuel' chunk_size chunk_overlap
                (drop (chunk_size - chunk_overlap) toks) with
        | Some chunks => Some (take chunk_size toks :: chunks)
        | None => None
        end
  end.

Definition split_tokens (chunk_size chunk_overlap : nat) (toks : list Token)
  : option (list (list Token)) :=
  walk_tokens (S (length toks)) chunk_size chunk_overlap toks.

(** The smallest integer that is at least [a / b]. *)
Definition ceil_div (a b : nat) : nat := (a + (b - 1)) / b.

(** The number of chunks section 8 of the design announces for a page of
    [n] tokens. *)
Definition chunk_count (chunk_size chunk_overlap n : nat) : nat :=
  if decide (chunk_size < n)
  then ceil_div (n - chunk_overlap) (chunk_size - chunk_overlap)
  else 1.

(** ** The vector store *)

Section VectorStore.

(** The metric of the collection: a higher score is a closer record. *)
Variable similarity : Vec -> Vec -> Z.

Definition score (qv : Vec) (r : IndexedRecord) : Z :=
  similarity qv (rec_embedding r).

(** [ranks_before qv a b]: [a] may stand before [b] in a result. *)
Definition ranks_before (qv : Vec) (a b : IndexedRecord) : Prop :=
  (score qv b <= score qv a)%Z.

#[global] Instance ranks_before_dec qv a b : Decision (ranks_before qv a b).
Proof. unfold ranks_before. apply _. Defined.

(** Modelled from the spec: the nearest-neighbour query of the Chroma
    collection, which is outside the repository.  Section 4.2: the [k]
    records with the highest similarity to the query embedding, in
    descending order of score; all of them when there are fewer. *)
Definition top_k (qv : Vec) (k : nat) (records : list IndexedRecord)
  : list IndexedRecord :=
  take k (merge_sort (ranks_before qv) records).

(** Modelled from the spec: appending one record (section 4.2, insert is
    append-only and does not deduplicate).  The identifier the store
    assigns is the number of records it held before. *)
Definition append_record (v : Vec) (chunk : Document)
    (records : list IndexedRecord) : list IndexedRecord :=
  records ++ [mkIndexedRecord (length records) v chunk].

End VectorStore.

(** ** The prompt template *)

Inductive Piece :=
| Lit (text : string)
| Var (key : string).

(** The text between the triple quotes of [PROMPT_TEMPLATE], line by line:
    what stands before [{context}], between the two placeholders, and
    after [{question}]. *)
Definition template_head : string :=
  PyStr.LF
  +:+ "    You are a highly knowledgeable assistant specializing in pharmaceutical sciences. " +:+ PyStr.LF
  +:+ "    Answer the question based only on the following context:" +:+ PyStr.LF
  +:+ "    ".

Definition template_middle : string :=
  PyStr.LF
  +:+ PyStr.LF
  +:+ "    Answer the question based on the above context:" +:+ PyStr.LF
  +:+ "    ".

Definition template_tail : string :=
  PyStr.LF
  +:+ PyStr.LF
  +:+ "    Use the provided context to answer the user's question accurately and concisely." +:+ PyStr.LF
  +:+ "    Don't justify your answers." +:+ PyStr.LF
  +:+ "    Don't give information not mentioned in the CONTEXT INFORMATION." +:+ PyStr.LF
  +:+ "    Do not say " +:+ PyStr.DQ +:+ "according to the context" +:+ PyStr.DQ
  +:+ " or " +:+ PyStr.DQ +:+ "mentioned in the context" +:+ PyStr.DQ
  +:+ " or similar." +:+ PyStr.LF
  +:+ "    ".

Definition PROMPT_TEMPLATE : list Piece :=
  [ Lit template_head; Var "context"; Lit template_middle; Var "question";
    Lit template_tail ].

(** Formatting a template with the values of its placeholders; the values
    are inserted verbatim. *)
Fixpoint render (template : list Piece) (values : gmap string string) : string :=
  match template with
  | [] => EmptyString
  | Lit text :: rest => text +:+ render rest values
  | Var key :: rest => default EmptyString (values !! key) +:+ render rest values
  end.

(** The mapping the first stage of the chain builds from its two branches. *)
Definition chain_inputs (context question : string) : gmap string string :=
  <["question" := question]> (<["context" := context]> ∅).

(** ** The program *)

(** What the widgets of the page hold when the script runs once. *)
Record Widgets := mkWidgets {
  query_text : string;
  submit_clicked : bool;
  key_text : string;
  enter_clicked : bool;
  pdf_docs : list UploadedFile;
  process_clicked : bool;
}.

(** Operations a session performs on the store, for the properties that
    speak about sequences of them. *)
Inductive Op :=
| OpSearch (query : string) (k : nat)
| OpRunRagChain (query : string)
| OpAddDocuments (chunks : list Document)
| OpAddToDb (files : list UploadedFile).

Definition is_insert (o : Op) : bool :=
  match o with
  | OpSearch _ _ | OpRunRagChain _ => false
  | OpAddDocuments _ | OpAddToDb _ => true
  end.

(** [os.path.join("./temp", uploaded_file.name)], the scratch file of an
    upload. *)
Definition temp_file_path_of (uploaded_file : UploadedFile) : string :=
  PyStr.os_path_join "./temp" (name uploaded_file).

(** Spec wording of the context block (section 4.3, step 3): the texts in
    the order given, with one blank line between consecutive texts. *)
Fixpoint blank_line_separated (texts : list string) : string :=
  match texts with
  | [] => EmptyString
  | [t] => t
  | t :: rest => t +:+ PyStr.LF +:+ PyStr.LF +:+ blank_line_separated rest
  end.

Section App.

(** *** Collaborators outside the repository *)

(** PyPDFLoader: the pages of the file at a path, or a parse failure. *)
Variable pdf_load : string -> list Byte.byte -> option (list Document).
(** The tokenizer of the sentence-transformers model. *)
Variable encode : string -> list Token.
Variable decode : list Token -> string.
(** The embedding model; [None] when the remote call fails. *)
Variable embed : string -> option Vec.
(** The metric of the collection. *)
Variable similarity : Vec -> Vec -> Z.
(** The generative model: prompt, credential, temperature. *)
Variable generate : string -> option string -> Z -> string + GenError.

(** *** Calls to the collaborators *)

Definition loader_load (path : string) : M (list Document) :=
  fun w =>
    match fs w !! path with
    | None => (Raise (FileNotFoundError path), w)
    | Some bytes =>
        match pdf_load path bytes with
        | Some pages => (Ok pages, w)
        | None => (Raise (LoadError path), w)
        end
    end.

Definition call_embed (text : string) (failure : string -> exn) : M Vec :=
  fun w =>
    let w' := set_calls (calls w ++ [EmbedCall text]) w in
    match embed text with
    | Some v => (Ok v, w')
    | None => (Raise (failure text), w')
    end.

Definition call_generate (prompt : string) (api_key : option string)
    (temperature : Z) : M string :=
  fun w =>
    let w' := set_calls (calls w ++ [GenerateCall prompt api_key temperature]) w in
    match generate prompt api_key temperature with
    | inl text => (Ok text, w')
    | inr e => (Raise (ModelError e), w')
    end.

(** *** Splitting *)

Definition split_text (chunk_size chunk_overlap : nat) (text : string)
  : list string :=
  match split_tokens chunk_size chunk_overlap (encode text) with
  | Some chunks => map decode chunks
  | None => []
  end.

(** Modelled from the spec: [create_documents] of the splitter library.
    Section 4.1: chunks come in page order, then in chunk order within
    the page, and each carries the metadata of its page unchanged. *)
Definition create_documents (chunk_size chunk_overlap : nat)
    (texts : list string) (metadatas : list Metadata) : list Document :=
  concat (zip_with
            (fun text md =>
               map (fun chunk => mkDocument chunk md)
                   (split_text chunk_size chunk_overlap text))
            texts metadatas).

(** *** The store *)

(** Modelled from the spec: [db.add_documents].  Section 4.2: each chunk
    is embedded and appended in turn; when the embedding of a chunk
    fails the records appended before it stay. *)
Fixpoint db_add_documents (chunks : list Document) : M unit :=
  match chunks with
  | [] => ret tt
  | c :: rest =>
      let* v := call_embed (page_content c) EmbeddingError in
      modify (fun w => set_db (append_record v c (db w)) w) ;;;
      db_add_documents rest
  end.

(** Modelled from the spec: the similarity search of the store. The
    query is embedded with the same function; the store is only read. *)
Definition db_search (query : string) (k : nat) : M (list IndexedRecord) :=
  let* qv := call_embed query QueryError in
  let* records := gets db in
  ret (top_k similarity qv k records).

(** [db.as_retriever(search_type="similarity", search_kwargs={'k': 5})]. *)
Definition retriever (query : string) : M (list Document) :=
  let* found := db_search query 5 in
  ret (map rec_doc found).

(** *** [add_to_db] *)

(** The body of the [for] loop, for one uploaded file. *)
Definition add_file_to_db (uploaded_file : UploadedFile) : M unit :=
  let temp_file_path := temp_file_path_of uploaded_file in
  os_makedirs (PyStr.os_path_dirname temp_file_path) ;;;
  write_file temp_file_path (getbuffer uploaded_file) ;;;
  let* data := loader_load temp_file_path in
  let doc_metadata := map metadata data in
  let doc_content := map page_content data in
  let st_chunks := create_documents 100 50 doc_content doc_metadata in
  db_add_documents st_chunks ;;;
  os_remove temp_file_path.

Definition add_to_db (uploaded_files : list UploadedFile) : M unit :=
  match uploaded_files with
  | [] => st_error "No files uploaded!"
  | _ :: _ => for_each add_file_to_db uploaded_files
  end.

(** *** [run_rag_chain] *)

Definition run_rag_chain (query : string) : M string :=
  let* api_key := gets (fun w => session_state w !! "gemini_api_key") in
  let* docs := retriever query in
  let context := format_docs docs in
  let prompt := render PROMPT_TEMPLATE (chain_inputs context query) in
  let* response := call_generate prompt api_key 1 in
  ret response.

(** *** [main] *)

(** The branch under the "Submit" button. *)
Definition on_submit (query : string) : M unit :=
  if negb (PyStr.truthy query)
  then st_warning "Please ask a question"
  else
    let* result := run_rag_chain query in
    st_write result.

(** The branch under the "Enter" button of the sidebar. *)
Definition on_enter (gemini_api_key : string) : M unit :=
  if PyStr.truthy gemini_api_key
  then
    modify (fun w =>
      set_session_state (<["gemini_api_key" := gemini_api_key]> (session_state w)) w) ;;;
    st_success "API key saved!"
  else st_warning "Please enter your Gemini API key to proceed.".

(** The branch under the "Submit & Process" button of the sidebar. *)
Definition on_process (docs : list UploadedFile) : M unit :=
  match docs with
  | [] => st_warning "Please upload the file"
  | _ :: _ =>
      add_to_db docs ;;;
      st_success ":file_folder: Documents successfully added to the database!"
  end.

Definition when (b : bool) (m : M unit) : M unit := if b then m else ret tt.

(** One run of the script.  Headers, spinners and the footer only draw
    on the page and are left out. *)
Definition main (wd : Widgets) : M unit :=
  when (submit_clicked wd) (on_submit (query_text wd)) ;;;
  when (enter_clicked wd) (on_enter (key_text wd)) ;;;
  when (process_clicked wd) (on_process (pdf_docs wd)).

(** *** Sessions *)

(** Streamlit shows an exception that leaves the script and keeps the
    process alive: the world after an operation is the one it left. *)
Definition run_op (o : Op) (w : World) : World :=
  match o with
  | OpSearch query k => snd (db_search query k w)
  | OpRunRagChain query => snd (run_rag_chain query w)
  | OpAddDocuments chunks => snd (db_add_documents chunks w)
  | OpAddToDb files => snd (add_to_db files w)
  end.

Definition run_ops (ops : list Op) (w : World) : World :=
  foldl (fun acc o => run_op o acc) w ops.

End App.

(** ** The construction of the chat model *)

Section ChatModel.

Variable embed : string -> option Vec.
Variable similarity : Vec -> Vec -> Z.
Variable generate : string -> option string -> Z -> string + GenError.

(** [ChatGoogleGenerativeAI(model=..., api_key=..., temperature=1)]: the
    class is outside the repository.  [construct] stands for its
    constructor: from the [api_key] argument it settles the credential
    the model will send with its calls, or it raises. *)
Variable construct : option string -> option string + GenError.

Definition call_construct (api_key : option string) : M (option string) :=
  fun w =>
    match construct api_key with
    | inl credential => (Ok credential, w)
    | inr e => (Raise (ModelError e), w)
    end.

(** [run_rag_chain] with the construction of the chat model (lines 85 to
    89) as a step of its own: it comes after the lookup of the key in the
    session state and before the chain is invoked.  [run_rag_chain] above
    is the case of a constructor that hands its argument through. *)
Definition run_rag_chain_constructed (query : string) : M string :=
  let* api_key := gets (fun w => session_state w !! "gemini_api_key") in
  let* credential := call_construct api_key in
  let* docs := retriever embed similarity query in
  let context := format_docs docs in
  let prompt := render PROMPT_TEMPLATE (chain_inputs context query) in
  let* response := call_generate generate prompt credential 1 in
  ret response.

End ChatModel.

(** A constructor that falls back on a key of the environment. *)
Module Keyed.

Definition construct (api_key : option string) : option string + GenError :=
  match api_key with
  | Some key => inl (Some key)
  | None => inl (Some "key-of-the-environment")
  end.

End Keyed.

(** ** Test doubles *)

(** Concrete collaborators on which the program can be run. *)
Module Doubles.

(** One token per character. *)
Definition encode (text : string) : list Token :=
  map (fun c => Z.of_nat (Ascii.nat_of_ascii c)) (String.list_ascii_of_string text).

Definition decode (toks : list Token) : string :=
  String.string_of_list_ascii (map (fun t => Ascii.ascii_of_nat (Z.to_nat t)) toks).

(** A loader that fails on an empty file and otherwise yields one page
    whose text is the name of the file. *)
Definition pdf_load (path : string) (bytes : list Byte.byte)
  : option (list Document) :=
  match bytes with
  | [] => None
  | _ :: _ => Some [mkDocument path (mkMetadata path 0)]
  end.

(** A text is embedded as its length. *)
Definition embed (text : string) : option Vec :=
  Some [Z.of_nat (String.length text)].

(** The closer the lengths, the higher the score. *)
Definition similarity (a b : Vec) : Z :=
  match a, b with
  | x :: _, y :: _ => (- Z.abs (x - y))%Z
  | _, _ => 0%Z
  end.

(** A model that insists on a credential. *)
Definition generate (prompt : string) (api_key : option string)
    (temperature : Z) : string + GenError :=
  match api_key with
  | Some _ => inl "ok"
  | None => inr CredentialError
  end.

Definition empty_world : World := mkWorld ∅ ∅ [] ∅ [] [].

Definition good_file : UploadedFile := mkUploadedFile "good.pdf" [Byte.x25; Byte.x50].
Definition bad_file : UploadedFile := mkUploadedFile "bad.pdf" [].

Definition record (i : nat) (len : Z) (text : string) : IndexedRecord :=
  mkIndexedRecord i [len] (mkDocument text (mkMetadata "a.pdf" i)).

(** A store that holds two records. *)
Definition two_records : World :=
  mkWorld ∅ ∅ [record 0 3 "abc"; record 1 5 "abcde"] ∅ [] [].

End Doubles.

(** ** The contract of the search *)

(** Spec wording of a search result (section 4.2): [found] holds the [k]
    records of [records] with the highest similarity to the query
    embedding, all of them when there are fewer, in descending order of
    score.  The wording leaves open which of two records of equal score
    comes first, or is kept. *)
Definition ranked_top_k (similarity : Vec -> Vec -> Z) (qv : Vec) (k : nat)
    (records found : list IndexedRecord) : Prop :=
  length found = min k (length records)
  /\ StronglySorted (ranks_before similarity qv) found
  /\ exists rest,
       records ≡ₚ found ++ rest
       /\ forall r r', r ∈ found -> r' ∈ rest ->
            (score similarity qv r' <= score similarity qv r)%Z.

(** ** Vocabulary of the further properties *)


(** The events of the page that are not [st.error]. *)
Definition not_error (e : UiEvent) : Prop :=
  match e with
  | StError _ => False
  | _ => True
  end.

(** [quiet m]: whatever [m] adds to the page, it never calls [st.error]. *)
Definition quiet {A} (m : M A) : Prop :=
  forall w, exists shown,
    ui (snd (m w)) = ui w ++ shown /\ Forall not_error shown.

(** The chunks [add_to_db] makes of the pages of one document: page by
    page, each chunk with the metadata of its page. *)
Definition chunks_of_pages (encode : string -> list Token)
    (decode : list Token -> string) (data : list Document) : list Document :=
  concat (map (fun pg =>
                 map (fun chunk => mkDocument chunk (metadata pg))
                     (split_text encode decode 100 50 (page_content pg)))
              data).

(** Collaborators that fail. *)
Module Faults.

(** An embedding service that is down. *)
Definition embed (text : string) : option Vec := None.

(** A model that gives the same answer to every prompt, whatever the
    credential. *)
Definition generate (prompt : string) (api_key : option string)
    (temperature : Z) : string + GenError :=
  inl "42".

End Faults.

(** * Properties *)

(** ** Arithmetic of the chunk count *)

Lemma ceil_div_bounds (a b : nat) :
  0 < b -> a <= ceil_div a b * b /\ ceil_div a b * b < a + b.
Proof.
  intros Hb. unfold ceil_div.
  pose proof (Nat.div_mod_eq (a + (b - 1)) b) as Hdm.
  pose proof (Nat.mod_upper_bound (a + (b - 1)) b ltac:(lia)) as Hlt.
  split; nia.
Qed.

Lemma ceil_div_unique (a b n : nat) :
  0 < b -> a <= n * b -> n * b < a + b -> ceil_div a b = n.
Proof.
  intros Hb Hlo Hhi. destruct (ceil_div_bounds a b Hb) as [H1 H2].
  nia.
Qed.

Lemma ceil_div_step (a b : nat) :
  0 < b -> b <= a -> ceil_div a b = S (ceil_div (a - b) b).
Proof.
  intros Hb Hab. apply ceil_div_unique; [done | |];
    destruct (ceil_div_bounds (a - b) b Hb); lia.
Qed.

(** ** The splitter *)

Section Splitter.

Variables chunk_size chunk_overlap : nat.
Hypothesis overlap_lt_size : chunk_overlap < chunk_size.

Let stride := chunk_size - chunk_overlap.

Lemma chunk_count_step (n : nat) :
  chunk_size < n ->
  chunk_count chunk_size chunk_overlap n
  = S (chunk_count chunk_size chunk_overlap (n - stride)).
Proof using overlap_lt_size.
  intros Hn. unfold chunk_count, stride in *.
  rewrite decide_True by done.
  rewrite ceil_div_step by lia.
  case_decide as Hrest.
  - do 2 f_equal. lia.
  - f_equal. apply ceil_div_unique; lia.
Qed.

(** With more fuel than tokens the walk ends, emits [chunk_count]
    chunks, and chunk [i] is the slice of at most [chunk_size] tokens
    that starts [i] strides into the page. *)
Lemma walk_tokens_enough (fuel : nat) (toks : list Token) :
  length toks < fuel ->
  exists chunks,
    walk_tokens fuel chunk_size chunk_overlap toks = Some chunks
    /\ length chunks = chunk_count chunk_size chunk_overlap (length toks)
    /\ forall i, i < length chunks ->
         chunks !! i = Some (take chunk_size (drop (stride * i) toks)).
Proof using overlap_lt_size.
  revert toks. induction fuel as [|fuel IH]; intros toks Hfuel; [lia|].
  simpl. case_decide as Hfit.
  - exists [take chunk_size toks]. split; [done|]. split.
    + unfold chunk_count. rewrite decide_False by lia. done.
    + intros i Hi. simpl in Hi. assert (i = 0) as -> by lia.
      rewrite Nat.mul_0_r. done.
  - destruct (IH (drop (chunk_size - chunk_overlap) toks)) as (chunks & -> & Hlen & Hnth).
    { rewrite length_drop. lia. }
    exists (take chunk_size toks :: chunks). split; [done|]. split.
    + simpl. rewrite Hlen, length_drop.
      rewrite (chunk_count_step (length toks)) by lia. done.
    + intros [|i] Hi; simpl in *.
      * rewrite Nat.mul_0_r. done.
      * rewrite Hnth by lia. rewrite drop_drop. do 3 f_equal.
        unfold stride. lia.
Qed.

(** The last chunk ends at the end of the page. *)
Lemma chunk_count_covers (n : nat) :
  n <= stride * (chunk_count chunk_size chunk_overlap n - 1) + chunk_size.
Proof using overlap_lt_size.
  unfold chunk_count, stride. case_decide as Hn; [|lia].
  destruct (ceil_div_bounds (n - chunk_overlap) (chunk_size - chunk_overlap)
              ltac:(lia)) as [Hlo Hhi].
  nia.
Qed.

End Splitter.

Lemma split_tokens_configured (toks : list Token) :
  exists chunks,
    split_tokens 100 50 toks = Some chunks
    /\ length chunks = chunk_count 100 50 (length toks)
    /\ (forall i, i < length chunks ->
          chunks !! i = Some (take 100 (drop (50 * i) toks)))
    /\ length toks <= 50 * (length chunks - 1) + 100.
Proof.
  destruct (walk_tokens_enough 100 50 ltac:(lia) (S (length toks)) toks ltac:(lia))
    as (chunks & Hrun & Hlen & Hnth).
  exists chunks. split; [exact Hrun|]. split; [exact Hlen|]. split; [exact Hnth|].
  rewrite Hlen. apply (chunk_count_covers 100 50). lia.
Qed.

(** C4: with [chunk_size=100] and [chunk_overlap=50], splitting a page
    text of [L] tokens ends and yields [ceil((L - 50) / (100 - 50))]
    chunks when [L > 100] and one chunk otherwise; chunk [i] is the text
    of exactly the slice of at most 100 tokens that starts at token
    [50 * i] (nothing is added to a short tail), and the last chunk
    reaches the end of the page (the tail is not dropped). *)
Theorem split_text_chunk_count
    (encode : string -> list Token) (decode : list Token -> string)
    (text : string) :
  let toks := encode text in
  let chunks := split_text encode decode 100 50 text in
  is_Some (split_tokens 100 50 toks)
  /\ length chunks
     = (if decide (100 < length toks)
        then ceil_div (length toks - 50) (100 - 50)
        else 1)
  /\ (forall i, i < length chunks ->
        chunks !! i = Some (decode (take 100 (drop (50 * i) toks))))
  /\ length toks <= 50 * (length chunks - 1) + 100.
Proof.
  cbv zeta. unfold split_text.
  destruct (split_tokens_configured (encode text))
    as (chunks & -> & Hlen & Hnth & Hcover).
  rewrite length_map. split; [by eexists|]. split; [exact Hlen|].
  split; [|exact Hcover].
  intros i Hi. rewrite list_lookup_fmap, Hnth by done. done.
Qed.

(** ** Effects of the monadic operations *)

Lemma preserves_ret {A X} (proj : World -> X) (a : A) : preserves proj (ret a).
Proof. done. Qed.

Lemma preserves_gets {A X} (proj : World -> X) (f : World -> A) :
  preserves proj (gets f).
Proof. done. Qed.

Lemma preserves_bind {A B X} (proj : World -> X) (m : M A) (k : A -> M B) :
  preserves proj m -> (forall a, preserves proj (k a)) -> preserves proj (bind m k).
Proof.
  intros Hm Hk w. unfold bind. specialize (Hm w).
  destruct (m w) as [[a|e] w1]; simpl in *; [|done].
  rewrite Hk. done.
Qed.

Lemma preserves_for_each {A X} (proj : World -> X) (body : A -> M unit) items :
  (forall a, preserves proj (body a)) -> preserves proj (for_each body items).
Proof.
  intros Hbody. induction items as [|a items IH]; simpl.
  - apply preserves_ret.
  - apply preserves_bind; auto.
Qed.

Lemma grows_preserves {A} (m : M A) : preserves db m -> grows m.
Proof. intros Hm w. rewrite Hm. done. Qed.

Lemma grows_bind {A B} (m : M A) (k : A -> M B) :
  grows m -> (forall a, grows (k a)) -> grows (bind m k).
Proof.
  intros Hm Hk w. unfold bind. specialize (Hm w).
  destruct (m w) as [[a|e] w1]; simpl in *; [|done].
  etrans; [exact Hm|apply Hk].
Qed.

Lemma grows_for_each {A} (body : A -> M unit) items :
  (forall a, grows (body a)) -> grows (for_each body items).
Proof.
  intros Hbody. induction items as [|a items IH]; simpl.
  - apply grows_preserves, preserves_ret.
  - apply grows_bind; auto.
Qed.

Lemma preserves_st_error {X} (proj : World -> X) msg :
  (forall u w, proj (set_ui u w) = proj w) -> preserves proj (st_error msg).
Proof. intros H w. apply H. Qed.

Lemma preserves_os_remove {X} (proj : World -> X) path :
  (forall f w, proj (set_fs f w) = proj w) -> preserves proj (os_remove path).
Proof. intros H w. unfold os_remove. destruct (fs w !! path); simpl; auto. Qed.

Section Properties.

Context (pdf_load : string -> list Byte.byte -> option (list Document)).
Context (encode : string -> list Token) (decode : list Token -> string).
Context (embed : string -> option Vec).
Context (similarity : Vec -> Vec -> Z).
Context (generate : string -> option string -> Z -> string + GenError).

(** *** What each collaborator call touches *)

Lemma loader_load_world path w : snd (loader_load pdf_load path w) = w.
Proof.
  unfold loader_load. destruct (fs w !! path) as [bytes|]; [|done].
  destruct (pdf_load path bytes); done.
Qed.

Lemma call_embed_world text failure w :
  snd (call_embed embed text failure w) = set_calls (calls w ++ [EmbedCall text]) w.
Proof. unfold call_embed. destruct (embed text); done. Qed.

Lemma call_generate_world prompt key t w :
  snd (call_generate generate prompt key t w)
  = set_calls (calls w ++ [GenerateCall prompt key t]) w.
Proof. unfold call_generate. destruct (generate prompt key t); done. Qed.

Lemma preserves_call_embed {X} (proj : World -> X) text failure :
  (forall c w, proj (set_calls c w) = proj w) ->
  preserves proj (call_embed embed text failure).
Proof. intros H w. rewrite call_embed_world. apply H. Qed.

Lemma preserves_call_generate {X} (proj : World -> X) prompt key t :
  (forall c w, proj (set_calls c w) = proj w) ->
  preserves proj (call_generate generate prompt key t).
Proof. intros H w. rewrite call_generate_world. apply H. Qed.

Lemma preserves_loader_load {X} (proj : World -> X) path :
  preserves proj (loader_load pdf_load path).
Proof. intros w. rewrite loader_load_world. done. Qed.

(** *** The store is append-only and searches only read it *)

Lemma db_add_documents_fs chunks : preserves fs (db_add_documents embed chunks).
Proof.
  induction chunks as [|c chunks IH]; simpl.
  - apply preserves_ret.
  - apply preserves_bind; [by apply preserves_call_embed|]. intros v.
    apply preserves_bind; [done|]. intros _. exact IH.
Qed.

Lemma db_add_documents_grows chunks : grows (db_add_documents embed chunks).
Proof.
  induction chunks as [|c chunks IH]; simpl.
  - apply grows_preserves, preserves_ret.
  - apply grows_bind; [by apply grows_preserves, preserves_call_embed|]. intros v.
    apply grows_bind; [|intros _; exact IH].
    intros w. simpl. unfold append_record. by apply prefix_app_r.
Qed.

Lemma db_search_db query k : preserves db (db_search embed similarity query k).
Proof.
  unfold db_search. apply preserves_bind; [by apply preserves_call_embed|].
  intros qv. apply preserves_bind; [apply preserves_gets|]. intros records.
  apply preserves_ret.
Qed.

Lemma run_rag_chain_db query :
  preserves db (run_rag_chain embed similarity generate query).
Proof.
  unfold run_rag_chain, retriever.
  apply preserves_bind; [apply preserves_gets|]. intros key.
  apply preserves_bind.
  { apply preserves_bind; [apply db_search_db|]. intros found. apply preserves_ret. }
  intros docs. apply preserves_bind; [by apply preserves_call_generate|].
  intros response. apply preserves_ret.
Qed.

Lemma add_file_to_db_grows file :
  grows (add_file_to_db pdf_load encode decode embed file).
Proof.
  unfold add_file_to_db.
  apply grows_bind; [by apply grows_preserves|]. intros _.
  apply grows_bind; [by apply grows_preserves|]. intros _.
  apply grows_bind; [apply grows_preserves, preserves_loader_load|]. intros data.
  apply grows_bind; [apply db_add_documents_grows|]. intros _.
  by apply grows_preserves, preserves_os_remove.
Qed.

Lemma add_to_db_grows files : grows (add_to_db pdf_load encode decode embed files).
Proof.
  destruct files as [|f files].
  - by apply grows_preserves.
  - apply grows_for_each, add_file_to_db_grows.
Qed.

(** The result of a search is a function of the query and of the records
    held by the store. *)
Lemma db_search_result query k w :
  fst (db_search embed similarity query k w)
  = match embed query with
    | Some qv => Ok (top_k similarity qv k (db w))
    | None => Raise (QueryError query)
    end.
Proof.
  unfold db_search, bind, call_embed, gets, ret.
  destruct (embed query); done.
Qed.

(** *** The scratch file *)

(** When the ingestion of one file returns, its scratch file is gone and
    no other file was touched. *)
Lemma add_file_to_db_ok_fs file w w' :
  add_file_to_db pdf_load encode decode embed file w = (Ok tt, w') ->
  fs w' = delete (temp_file_path_of file) (fs w).
Proof.
  unfold add_file_to_db, bind at 1 2 3. simpl.
  unfold loader_load at 1. simpl. rewrite lookup_insert_eq.
  destruct (pdf_load _ _) as [data|]; [|done].
  set (w1 := set_fs _ _).
  unfold bind.
  pose proof (db_add_documents_fs
    (create_documents encode decode 100 50 (map page_content data) (map metadata data)) w1) as Hfs.
  destruct (db_add_documents _ _ w1) as [[[]|e] w2]; [|done].
  simpl in Hfs. unfold os_remove. rewrite Hfs. subst w1. simpl.
  rewrite lookup_insert_eq. intros [= <-]. simpl.
  apply delete_insert_eq.
Qed.

Lemma for_each_add_file_ok_fs files w w' path :
  for_each (add_file_to_db pdf_load encode decode embed) files w = (Ok tt, w') ->
  fs w' !! path
  = if decide (path ∈ map temp_file_path_of files) then None else fs w !! path.
Proof.
  revert w. induction files as [|f files IH]; intros w; cbn [for_each map].
  - intros [= <-]. case_decide as Hin; [by apply elem_of_nil in Hin|done].
  - unfold bind at 1.
    destruct (add_file_to_db _ _ _ _ f w) as [[[]|e] w1] eqn:Hone; [|done].
    intros Hrest. rewrite (IH _ Hrest).
    rewrite (add_file_to_db_ok_fs _ _ _ Hone).
    destruct (decide (path = temp_file_path_of f)) as [->|Hne].
    + rewrite lookup_delete_eq. clear IH.
      rewrite (decide_True (P := _ ∈ _ :: _)) by left.
      by destruct (decide _).
    + rewrite lookup_delete_ne by done. clear IH.
      destruct (decide (path ∈ map temp_file_path_of files)) as [Hin|Hin].
      * rewrite decide_True; [done|]. by right.
      * rewrite decide_False; [done|]. by intros [?|?]%elem_of_cons.
Qed.

(** When the ingestion of one file raises, whatever the exception, its
    scratch file is still there: every statement that can raise stands
    between the write and the removal. *)
Lemma add_file_to_db_raise_fs file w e w' :
  add_file_to_db pdf_load encode decode embed file w = (Raise e, w') ->
  fs w' !! temp_file_path_of file = Some (getbuffer file).
Proof.
  unfold add_file_to_db, bind at 1 2 3. simpl.
  unfold loader_load at 1. simpl. rewrite lookup_insert_eq.
  destruct (pdf_load _ _) as [data|].
  - set (w1 := set_fs _ _). unfold bind.
    pose proof (db_add_documents_fs
      (create_documents encode decode 100 50 (map page_content data) (map metadata data)) w1) as Hfs.
    destruct (db_add_documents _ _ w1) as [[[]|e'] w2].
    + simpl in Hfs. unfold os_remove. rewrite Hfs. subst w1. simpl.
      by rewrite lookup_insert_eq.
    + intros [= _ <-]. simpl in Hfs. rewrite Hfs. subst w1. simpl.
      by rewrite lookup_insert_eq.
  - intros [= _ <-]. simpl. by rewrite lookup_insert_eq.
Qed.

Lemma db_add_documents_raises chunks w e w' :
  db_add_documents embed chunks w = (Raise e, w') ->
  exists text, e = EmbeddingError text.
Proof.
  revert w. induction chunks as [|c chunks IH]; intros w; cbn [db_add_documents].
  - done.
  - unfold bind at 1, call_embed.
    destruct (embed (page_content c)) as [v|].
    + unfold bind at 1, modify. apply IH.
    + intros [= <- _]. by eexists.
Qed.

(** The two statements of the loop body that raise are the load and the
    insert: the loader's error names the scratch file it could not
    parse, the insert's error is the embedding collaborator's. *)
Lemma add_file_to_db_raise_cause file w e w' :
  add_file_to_db pdf_load encode decode embed file w = (Raise e, w') ->
  (e = LoadError (temp_file_path_of file)
   /\ pdf_load (temp_file_path_of file) (getbuffer file) = None)
  \/ exists text, e = EmbeddingError text.
Proof.
  unfold add_file_to_db, bind at 1 2 3. simpl.
  unfold loader_load at 1. simpl. rewrite lookup_insert_eq.
  destruct (pdf_load _ _) as [data|].
  - set (w1 := set_fs _ _). unfold bind.
    pose proof (db_add_documents_fs
      (create_documents encode decode 100 50 (map page_content data) (map metadata data)) w1) as Hfs.
    destruct (db_add_documents _ _ w1) as [[[]|e'] w2] eqn:Hadd.
    + simpl in Hfs. unfold os_remove. rewrite Hfs. subst w1. simpl.
      by rewrite lookup_insert_eq.
    + intros [= <- _]. right. by apply db_add_documents_raises in Hadd.
  - intros [= <- _]. by left.
Qed.

(** A loop that raises went through the documents before the failing
    one, and stopped in the body of the failing one. *)
Lemma for_each_raise_split {A} (body : A -> M unit) items w e w' :
  for_each body items w = (Raise e, w') ->
  exists before failing after w1,
    items = before ++ failing :: after
    /\ for_each body before w = (Ok tt, w1)
    /\ body failing w1 = (Raise e, w').
Proof.
  revert w. induction items as [|x items IH]; intros w; cbn [for_each]; [done|].
  unfold bind at 1. destruct (body x w) as [[[]|e'] w1] eqn:Hone.
  - intros Hrest.
    destruct (IH _ Hrest) as (before & failing & after & w2 & -> & Hbefore & Hfail).
    exists (x :: before), failing, after, w2. split; [done|]. split; [|done].
    cbn [for_each]. unfold bind. by rewrite Hone.
  - intros [= -> <-]. by exists [], x, items, w.
Qed.

(** C1 (amended): the scratch file of a document is removed by the last
    statement of the loop body, at the end of the ingestion of that
    document, and nowhere else.  When [add_to_db] returns, the scratch
    file of every document of the batch is gone.  When [add_to_db]
    raises, the batch splits at the document whose ingestion raised: the
    documents before it were ingested, the exception is the loader's, for
    the scratch file of that document, or the insert's; the scratch file
    of that document still exists with the bytes of the upload, and the
    scratch files of the documents before it are gone. *)
Theorem add_to_db_removes_scratch_files files w w' :
  (add_to_db pdf_load encode decode embed files w = (Ok tt, w') ->
   forall file, file ∈ files -> fs w' !! temp_file_path_of file = None)
  /\ (forall e,
        add_to_db pdf_load encode decode embed files w = (Raise e, w') ->
        exists before failing after w1,
          files = before ++ failing :: after
          /\ for_each (add_file_to_db pdf_load encode decode embed) before w
             = (Ok tt, w1)
          /\ add_file_to_db pdf_load encode decode embed failing w1
             = (Raise e, w')
          /\ ((e = LoadError (temp_file_path_of failing)
               /\ pdf_load (temp_file_path_of failing) (getbuffer failing) = None)
              \/ exists text, e = EmbeddingError text)
          /\ fs w' !! temp_file_path_of failing = Some (getbuffer failing)
          /\ forall file,
               file ∈ before ->
               temp_file_path_of file <> temp_file_path_of failing ->
               fs w' !! temp_file_path_of file = None)
  /\ (forall file v v',
        add_file_to_db pdf_load encode decode embed file v = (Ok tt, v') ->
        fs v' !! temp_file_path_of file = None).
Proof.
  split; [|split].
  - destruct files as [|f files]; [by intros _ file Hin%elem_of_nil|].
    unfold add_to_db. intros Hrun file Hin.
    rewrite (for_each_add_file_ok_fs _ _ _ (temp_file_path_of file) Hrun).
    rewrite decide_True; [done|]. by apply list_elem_of_fmap_2.
  - intros e. destruct files as [|f files]; [done|]. unfold add_to_db.
    intros (before & failing & after & w1 & Hsplit & Hbefore & Hfail)%for_each_raise_split.
    exists before, failing, after, w1.
    split; [done|]. split; [done|]. split; [done|].
    split; [by apply add_file_to_db_raise_cause in Hfail|].
    pose proof (add_file_to_db_raise_fs _ _ _ _ Hfail) as Hkept.
    split; [exact Hkept|]. intros file Hin Hne.
    assert (fs w' !! temp_file_path_of file = fs w1 !! temp_file_path_of file) as ->.
    { revert Hfail. clear -Hne. unfold add_file_to_db, bind at 1 2 3. simpl.
      unfold loader_load at 1. simpl. rewrite lookup_insert_eq.
      destruct (pdf_load _ _) as [data|].
      - set (w2 := set_fs _ _). unfold bind.
        pose proof (db_add_documents_fs
          (create_documents encode decode 100 50 (map page_content data)
             (map metadata data)) w2) as Hfs.
        destruct (db_add_documents _ _ w2) as [[[]|e'] w3].
        + simpl in Hfs. unfold os_remove. rewrite Hfs. subst w2. simpl.
          by rewrite lookup_insert_eq.
        + intros [= _ <-]. simpl in Hfs. rewrite Hfs. subst w2. simpl.
          by rewrite lookup_insert_ne.
      - intros [= _ <-]. simpl. by rewrite lookup_insert_ne. }
    rewrite (for_each_add_file_ok_fs _ _ _ (temp_file_path_of file) Hbefore).
    rewrite decide_True; [done|]. by apply list_elem_of_fmap_2.
  - intros file v v' Hone. rewrite (add_file_to_db_ok_fs _ _ _ Hone).
    apply lookup_delete_eq.
Qed.

(** *** Batches *)

Lemma for_each_app {A} (body : A -> M unit) (l1 l2 : list A) w :
  for_each body (l1 ++ l2) w
  = match for_each body l1 w with
    | (Ok _, w1) => for_each body l2 w1
    | (Raise e, w1) => (Raise e, w1)
    end.
Proof.
  revert w. induction l1 as [|a l1 IH]; intros w; simpl; [done|].
  unfold bind. destruct (body a w) as [[[]|e] w1]; [apply IH|done].
Qed.

(** What the loop body does with a file the loader cannot parse: the
    scratch file is written, the loader's error leaves the function, and
    the statements after the load are not reached. *)
Lemma add_file_to_db_load_failure file w :
  pdf_load (temp_file_path_of file) (getbuffer file) = None ->
  add_file_to_db pdf_load encode decode embed file w
  = (Raise (LoadError (temp_file_path_of file)),
     set_fs (<[temp_file_path_of file := getbuffer file]> (fs w))
       (set_dirs ({[PyStr.os_path_dirname (temp_file_path_of file)]} ∪ dirs w) w)).
Proof.
  intros Hload. unfold add_file_to_db, bind at 1 2 3. simpl.
  unfold loader_load. simpl. rewrite lookup_insert_eq, Hload. done.
Qed.

(** C2 (amended): when the loader fails on one document of a batch,
    [add_to_db] raises the loader's error for that document at that point.
    The documents before it have been ingested and their records stay in
    the store; no document after it is ingested: the store, the calls made
    to the collaborators and the page are as the documents before the
    failing one left them, whatever follows it in the batch.  The scratch
    file of the failing document is left behind. *)
Theorem add_to_db_stops_at_load_failure before failing after w w1 :
  for_each (add_file_to_db pdf_load encode decode embed) before w = (Ok tt, w1) ->
  pdf_load (temp_file_path_of failing) (getbuffer failing) = None ->
  exists w2,
    add_to_db pdf_load encode decode embed (before ++ failing :: after) w
    = (Raise (LoadError (temp_file_path_of failing)), w2)
    /\ db w2 = db w1
    /\ calls w2 = calls w1
    /\ ui w2 = ui w1
    /\ fs w2 !! temp_file_path_of failing = Some (getbuffer failing).
Proof.
  intros Hbefore Hload.
  assert (add_to_db pdf_load encode decode embed (before ++ failing :: after) w
          = for_each (add_file_to_db pdf_load encode decode embed)
              (before ++ failing :: after) w) as ->.
  { unfold add_to_db. by destruct before. }
  rewrite for_each_app, Hbefore. cbn [for_each]. unfold bind.
  rewrite (add_file_to_db_load_failure _ _ Hload).
  eexists. split; [done|]. simpl. by rewrite lookup_insert_eq.
Qed.

(** *** Queries *)

Lemma run_rag_chain_calls query w :
  exists rest,
    calls (snd (run_rag_chain embed similarity generate query w))
    = calls w ++ EmbedCall query :: rest.
Proof.
  unfold run_rag_chain, retriever, db_search, bind, gets, ret, call_embed,
    call_generate. simpl.
  destruct (embed query) as [qv|]; simpl.
  - destruct (generate _ _ _); simpl; eexists; by rewrite <- app_assoc.
  - by eexists.
Qed.

(** A run of the script in which only "Submit" was pressed is the branch
    under that button. *)
Lemma main_submit_only query key docs w :
  main pdf_load encode decode embed similarity generate
    (mkWidgets query true key false docs false) w
  = on_submit embed similarity generate query w.
Proof.
  unfold main, when, bind. simpl.
  by destruct (on_submit _ _ _ query w) as [[[]|e] w1].
Qed.

(** C3 (amended): the empty query is turned away by the branch under the
    "Submit" button with the warning "Please ask a question", and nothing
    else happens: no collaborator is called.  Emptiness is the only test:
    every non-empty query, one made of whitespace included, is handed to
    [run_rag_chain], whose first step calls the embedding collaborator on
    it. *)
Theorem on_submit_rejects_empty_query :
  (forall w,
     on_submit embed similarity generate EmptyString w
     = (Ok tt, set_ui (ui w ++ [StWarning "Please ask a question"]) w))
  /\ (forall c s w,
        exists rest,
          calls (snd (on_submit embed similarity generate (String c s) w))
          = calls w ++ EmbedCall (String c s) :: rest).
Proof.
  split; [done|]. intros c s w.
  destruct (run_rag_chain_calls (String c s) w) as [rest Hrest].
  exists rest. unfold on_submit. cbn [PyStr.truthy negb]. unfold bind.
  destruct (run_rag_chain _ _ _ _ w) as [[answer|e] w1]; simpl in *; done.
Qed.

(** *** Ranking *)

#[local] Instance ranks_before_transitive qv :
  Transitive (ranks_before similarity qv).
Proof. intros a b c. unfold ranks_before. lia. Qed.

#[local] Instance ranks_before_total qv : Total (ranks_before similarity qv).
Proof. intros a b. unfold ranks_before. lia. Qed.

Lemma top_k_length qv k records :
  length (top_k similarity qv k records) = min k (length records).
Proof.
  unfold top_k. rewrite length_take.
  by rewrite (Permutation_length (merge_sort_Permutation _ records)).
Qed.

Lemma top_k_sorted qv k records :
  StronglySorted (ranks_before similarity qv) (top_k similarity qv k records).
Proof.
  unfold top_k.
  apply (StronglySorted_app_1_l _ _ (drop k (merge_sort (ranks_before similarity qv) records))).
  rewrite take_drop. apply StronglySorted_merge_sort; apply _.
Qed.

(** The records left out of the result score no higher than any record
    in it. *)
Lemma top_k_best qv k records :
  exists rest,
    records ≡ₚ top_k similarity qv k records ++ rest
    /\ forall r r', r ∈ top_k similarity qv k records -> r' ∈ rest ->
         (score similarity qv r' <= score similarity qv r)%Z.
Proof.
  exists (drop k (merge_sort (ranks_before similarity qv) records)).
  unfold top_k. split.
  - rewrite take_drop. symmetry. apply merge_sort_Permutation.
  - intros r r' Hr Hr'.
    eapply (StronglySorted_app_1_elem_of (ranks_before similarity qv));
      [|exact Hr|exact Hr'].
    rewrite take_drop. apply StronglySorted_merge_sort; apply _.
Qed.

Lemma top_k_all qv k records :
  length records <= k -> top_k similarity qv k records ≡ₚ records.
Proof.
  intros Hk. unfold top_k. rewrite take_ge.
  - apply merge_sort_Permutation.
  - by rewrite (Permutation_length (merge_sort_Permutation _ records)).
Qed.

Lemma db_search_ok query qv k w :
  embed query = Some qv ->
  db_search embed similarity query k w
  = (Ok (top_k similarity qv k (db w)),
     set_calls (calls w ++ [EmbedCall query]) w).
Proof.
  intros Hq. unfold db_search, bind, call_embed, gets, ret. by rewrite Hq.
Qed.

(** C5: for [k > 0] and a query the embedding function accepts, the
    search returns stored records, [min k n] of them when the store holds
    [n], in descending order of similarity to the query embedding, and no
    record left out scores higher than a record returned; when the store
    holds fewer than [k] records all of them are returned.  With [k = 5]
    and two records the result has exactly two records. *)
Theorem db_search_returns_top_k query qv k w :
  0 < k ->
  embed query = Some qv ->
  exists found w',
    db_search embed similarity query k w = (Ok found, w')
    /\ length found = min k (length (db w))
    /\ StronglySorted (ranks_before similarity qv) found
    /\ (exists rest,
          db w ≡ₚ found ++ rest
          /\ forall r r', r ∈ found -> r' ∈ rest ->
               (score similarity qv r' <= score similarity qv r)%Z)
    /\ (length (db w) < k -> found ≡ₚ db w)
    /\ (k = 5 -> length (db w) = 2 -> length found = 2).
Proof.
  intros _ Hq. rewrite (db_search_ok _ _ _ _ Hq).
  eexists _, _. split; [done|].
  split; [apply top_k_length|].
  split; [apply top_k_sorted|].
  split; [apply top_k_best|].
  split.
  - intros Hlt. apply top_k_all. lia.
  - intros -> Hn. rewrite top_k_length, Hn. done.
Qed.

(** *** Sessions *)

Lemma run_op_reads o w :
  is_insert o = false ->
  db (run_op pdf_load encode decode embed similarity generate o w) = db w.
Proof.
  destruct o; simpl; try done; intros _.
  - apply db_search_db.
  - apply run_rag_chain_db.
Qed.

Lemma run_ops_reads ops w :
  forallb (fun o => negb (is_insert o)) ops = true ->
  db (run_ops pdf_load encode decode embed similarity generate ops w) = db w.
Proof.
  revert w. induction ops as [|o ops IH]; intros w; simpl; [done|].
  intros [Ho Hops]%andb_prop. unfold run_ops in *. rewrite IH by done.
  apply run_op_reads. by destruct (is_insert o).
Qed.

Lemma run_op_grows o w :
  db w `prefix_of` db (run_op pdf_load encode decode embed similarity generate o w).
Proof.
  destruct o; simpl.
  - by rewrite db_search_db.
  - by rewrite run_rag_chain_db.
  - apply db_add_documents_grows.
  - apply add_to_db_grows.
Qed.

Lemma run_ops_grows ops w :
  db w `prefix_of` db (run_ops pdf_load encode decode embed similarity generate ops w).
Proof.
  revert w. induction ops as [|o ops IH]; intros w; simpl; [done|].
  etrans; [apply (run_op_grows o)|apply IH].
Qed.

Lemma top_k_ranked qv k records :
  ranked_top_k similarity qv k records (top_k similarity qv k records).
Proof.
  split; [apply top_k_length|]. split; [apply top_k_sorted|apply top_k_best].
Qed.

Lemma NoDup_fmap_elem_eq {A B} (f : A -> B) (l : list A) x y :
  NoDup (map f l) -> x ∈ l -> y ∈ l -> f x = f y -> x = y.
Proof.
  induction l as [|a l IH]; cbn [map]; [by intros _ ?%elem_of_nil|].
  intros [Hnotin Hnodup]%NoDup_cons Hx Hy Hxy.
  apply elem_of_cons in Hx as [->|Hx]; apply elem_of_cons in Hy as [->|Hy].
  - done.
  - exfalso. apply Hnotin. rewrite Hxy. by apply list_elem_of_fmap_2.
  - exfalso. apply Hnotin. rewrite <- Hxy. by apply list_elem_of_fmap_2.
  - by apply IH.
Qed.

(** When no two stored records have the same score, the contract of the
    search leaves one result only. *)
Lemma ranked_top_k_unique qv k records found found' :
  NoDup (map (score similarity qv) records) ->
  ranked_top_k similarity qv k records found ->
  ranked_top_k similarity qv k records found' ->
  found' = found.
Proof.
  intros Hties (Hlen & Hsorted & rest & Hperm & Hbest)
    (Hlen' & Hsorted' & rest' & Hperm' & Hbest').
  set (R := ranks_before similarity qv).
  assert (forall l tail : list IndexedRecord,
            StronglySorted R l ->
            (forall r r', r ∈ l -> r' ∈ tail ->
               (score similarity qv r' <= score similarity qv r)%Z) ->
            StronglySorted R (l ++ merge_sort R tail)) as Hjoin.
  { intros l tail Hl Hcross. apply StronglySorted_app_2; [|done|].
    - intros x1 x2 Hx1 Hx2. apply Hcross; [done|].
      by rewrite (merge_sort_Permutation R tail) in Hx2.
    - apply StronglySorted_merge_sort; apply _. }
  assert (found' ++ merge_sort R rest' = found ++ merge_sort R rest) as Heq.
  { apply (StronglySorted_unique_strong R); [|by apply Hjoin..|].
    - intros x1 x2 Hx1 Hx2 H12 H21.
      apply (NoDup_fmap_elem_eq (score similarity qv) records); [done| | |].
      + rewrite Hperm'. by rewrite (merge_sort_Permutation R rest') in Hx1.
      + rewrite Hperm. by rewrite (merge_sort_Permutation R rest) in Hx2.
      + unfold R, ranks_before in *. lia.
    - rewrite !merge_sort_Permutation. by rewrite <- Hperm, <- Hperm'. }
  apply app_inj_1 in Heq as [? _]; [done|]. by rewrite Hlen, Hlen'.
Qed.

(** C7: two searches for the same query and the same [k] with no insert
    between them give the same outcome, record for record and in the same
    order, whatever reads (other searches, whole queries) happen in
    between.  The outcome of the first is a result in the sense of the
    contract for the store as it is; and when no two stored records have
    the same score, every list that meets the contract for the store as
    the second search finds it is that same result: identical results
    then follow from the contract and from the store being left alone, not
    from the way the model breaks ties. *)
Theorem db_search_idempotent ops query k w :
  forallb (fun o => negb (is_insert o)) ops = true ->
  let first := db_search embed similarity query k w in
  let later :=
    run_ops pdf_load encode decode embed similarity generate ops (snd first) in
  fst (db_search embed similarity query k later) = fst first
  /\ forall qv,
       embed query = Some qv ->
       exists found,
         fst first = Ok found
         /\ ranked_top_k similarity qv k (db w) found
         /\ (NoDup (map (score similarity qv) (db w)) ->
             forall found',
               ranked_top_k similarity qv k (db later) found' ->
               found' = found).
Proof.
  intros Hreads. cbv zeta.
  assert (db (run_ops pdf_load encode decode embed similarity generate ops
                (snd (db_search embed similarity query k w))) = db w) as Hdb.
  { by rewrite (run_ops_reads _ _ Hreads), db_search_db. }
  split.
  - rewrite !db_search_result. by rewrite Hdb.
  - intros qv Hq. exists (top_k similarity qv k (db w)).
    split; [by rewrite db_search_result, Hq|].
    split; [apply top_k_ranked|].
    intros Hties found' Hfound'. rewrite Hdb in Hfound'.
    apply (ranked_top_k_unique qv k (db w)); [done|apply top_k_ranked|done].
Qed.

(** A stored record is what a search can return: it is in the result of
    every search whose [k] is at least the size of the store. *)
Lemma stored_record_retrievable r query qv k w :
  r ∈ db w -> embed query = Some qv -> length (db w) <= k ->
  exists found w',
    db_search embed similarity query k w = (Ok found, w') /\ r ∈ found.
Proof.
  intros Hr Hq Hk. rewrite (db_search_ok _ _ _ _ Hq).
  eexists _, _. split; [done|]. by rewrite (top_k_all qv _ _ Hk).
Qed.

(** C8: a record of the store stays retrievable: after any sequence of
    operations (inserts of chunks, ingestions of batches, searches,
    queries) a search with [k] at least the size of the store still
    returns it. *)
Theorem inserted_records_stay_retrievable ops r query qv k w :
  r ∈ db w ->
  embed query = Some qv ->
  length (db (run_ops pdf_load encode decode embed similarity generate ops w)) <= k ->
  exists found w',
    db_search embed similarity query k
      (run_ops pdf_load encode decode embed similarity generate ops w)
    = (Ok found, w')
    /\ r ∈ found.
Proof.
  intros Hr Hq Hk. apply (stored_record_retrievable r query qv); [|done..].
  eapply elem_of_prefix; [exact Hr|apply run_ops_grows].
Qed.

(** *** The context block and the prompt *)

Lemma string_app_assoc (a b c : string) : (a +:+ b) +:+ c = a +:+ (b +:+ c).
Proof.
  induction a as [|x a IH]; [done|].
  change (String x ((a +:+ b) +:+ c) = String x (a +:+ (b +:+ c))).
  by rewrite IH.
Qed.

Lemma string_app_empty_r (a : string) : a +:+ EmptyString = a.
Proof.
  induction a as [|x a IH]; [done|].
  change (String x (a +:+ EmptyString) = String x a). by rewrite IH.
Qed.

Lemma join_blank_line_separated (texts : list string) :
  PyStr.join (PyStr.LF +:+ PyStr.LF) texts = blank_line_separated texts.
Proof.
  destruct texts as [|t texts]; [done|]. cbn [PyStr.join].
  revert t. induction texts as [|t' texts IH]; intros t.
  - cbn [PyStr.join_rest blank_line_separated]. apply string_app_empty_r.
  - cbn [PyStr.join_rest]. rewrite IH. rewrite string_app_assoc. done.
Qed.

Lemma format_docs_blank_line_separated (docs : list Document) :
  format_docs docs = blank_line_separated (map page_content docs).
Proof. apply join_blank_line_separated. Qed.

(** Rendering the template puts the context and the question, verbatim,
    at their placeholders. *)
Lemma render_PROMPT_TEMPLATE (context question : string) :
  render PROMPT_TEMPLATE (chain_inputs context question)
  = template_head +:+ context +:+ template_middle +:+ question +:+ template_tail.
Proof.
  unfold PROMPT_TEMPLATE, chain_inputs. cbn [render].
  rewrite lookup_insert_eq.
  rewrite lookup_insert_ne by done. rewrite lookup_insert_eq.
  cbn [default id]. by rewrite string_app_empty_r.
Qed.

(** One run of the chain on a query the embedding function accepts: the
    embedding call, then the model call on the rendered prompt, with the
    credential found in the session state, if any. *)
Lemma run_rag_chain_ok query qv w :
  embed query = Some qv ->
  let docs := map rec_doc (top_k similarity qv 5 (db w)) in
  let prompt := render PROMPT_TEMPLATE (chain_inputs (format_docs docs) query) in
  let key := session_state w !! "gemini_api_key" in
  run_rag_chain embed similarity generate query w
  = (match generate prompt key 1 with
     | inl text => Ok text
     | inr e => Raise (ModelError e)
     end,
     set_calls (calls w ++ [EmbedCall query; GenerateCall prompt key 1]) w).
Proof.
  intros Hq. simpl.
  unfold run_rag_chain, retriever, bind at 1 2 3, gets.
  rewrite (db_search_ok _ _ _ _ Hq). unfold ret at 1.
  unfold bind, call_generate. simpl.
  destruct (generate _ _ _); unfold ret, set_calls; simpl;
    by rewrite <- app_assoc.
Qed.

(** C6: on a query the embedding function accepts, the context that
    [run_rag_chain] puts into the prompt is the texts of the retrieved
    chunks, in the ranked order of the retrieval result (highest
    similarity first), with one blank line between consecutive texts; it
    stands verbatim at the placeholder of the template, in the prompt the
    model is called with. *)
Theorem prompt_context_is_ranked_texts query qv w :
  embed query = Some qv ->
  exists found w1,
    db_search embed similarity query 5 w = (Ok found, w1)
    /\ StronglySorted (ranks_before similarity qv) found
    /\ format_docs (map rec_doc found)
       = blank_line_separated (map (fun r => page_content (rec_doc r)) found)
    /\ calls (snd (run_rag_chain embed similarity generate query w))
       = calls w
         ++ [EmbedCall query;
             GenerateCall
               (template_head
                +:+ blank_line_separated (map (fun r => page_content (rec_doc r)) found)
                +:+ template_middle +:+ query +:+ template_tail)
               (session_state w !! "gemini_api_key") 1].
Proof.
  intros Hq. rewrite (db_search_ok _ _ _ _ Hq). eexists _, _. split; [done|].
  split; [apply top_k_sorted|].
  assert (forall found : list IndexedRecord,
            format_docs (map rec_doc found)
            = blank_line_separated (map (fun r => page_content (rec_doc r)) found))
    as Hctx.
  { intros found. rewrite format_docs_blank_line_separated.
    by rewrite map_map. }
  split; [apply Hctx|].
  rewrite (run_rag_chain_ok _ _ _ Hq). cbn [snd].
  rewrite render_PROMPT_TEMPLATE, Hctx. done.
Qed.

(** C9: when the retrieval returns no record, [format_docs] yields the
    empty string, the prompt is the template with nothing at the context
    placeholder, and the rest of [run_rag_chain] is the call to the
    generative model on that prompt: the model is invoked and only its
    own failure can make the function raise. *)
Theorem empty_retrieval_still_calls_model query w w1 :
  retriever embed similarity query w = (Ok [], w1) ->
  format_docs [] = EmptyString
  /\ run_rag_chain embed similarity generate query w
     = call_generate generate
         (template_head +:+ EmptyString +:+ template_middle +:+ query
          +:+ template_tail)
         (session_state w !! "gemini_api_key") 1 w1
  /\ calls (snd (run_rag_chain embed similarity generate query w))
     = calls w1
       ++ [GenerateCall
             (template_head +:+ EmptyString +:+ template_middle +:+ query
              +:+ template_tail)
             (session_state w !! "gemini_api_key") 1].
Proof.
  intros Hret. split; [done|].
  assert (run_rag_chain embed similarity generate query w
          = call_generate generate
              (template_head +:+ EmptyString +:+ template_middle +:+ query
               +:+ template_tail)
              (session_state w !! "gemini_api_key") 1 w1) as Hrun.
  { unfold run_rag_chain, bind at 1 2, gets. rewrite Hret.
    change (format_docs []) with EmptyString.
    rewrite render_PROMPT_TEMPLATE. unfold bind, ret.
    by destruct (call_generate _ _ _ _ w1) as [[text|e] w2]. }
  split; [exact Hrun|]. rewrite Hrun, call_generate_world. done.
Qed.

(** The chain behind a constructor that hands its argument through is
    [run_rag_chain]. *)
Lemma run_rag_chain_constructed_through query w :
  run_rag_chain_constructed embed similarity generate (fun key => inl key) query w
  = run_rag_chain embed similarity generate query w.
Proof. done. Qed.



(** *** Inserting *)

(** A successful insert appends one record per chunk, in order, and
    leaves the records already stored as they were. *)
Lemma db_add_documents_appends chunks w w' :
  db_add_documents embed chunks w = (Ok tt, w') ->
  exists records,
    db w' = db w ++ records /\ map rec_doc records = chunks.
Proof.
  revert w. induction chunks as [|c chunks IH]; intros w; cbn [db_add_documents].
  - intros [= <-]. exists []. by rewrite app_nil_r.
  - unfold bind at 1, call_embed. destruct (embed (page_content c)) as [v|]; [|done].
    unfold bind at 1, modify. intros Hrest.
    destruct (IH _ Hrest) as (records & Hdb & Hdocs).
    exists (mkIndexedRecord (length (db w)) v c :: records).
    split; [|by rewrite <- Hdocs].
    rewrite Hdb. simpl. unfold append_record. by rewrite <- app_assoc.
Qed.

End Properties.

(** * The properties on the test doubles *)

Import Doubles.

(** A batch whose only document loads: the scratch file is gone when
    [add_to_db] returns. *)
Lemma add_to_db_removes_scratch_files_witness :
  fs (snd (add_to_db pdf_load encode decode embed [good_file] empty_world))
    !! temp_file_path_of good_file = None.
Proof.
  apply (proj1 (add_to_db_removes_scratch_files pdf_load encode decode embed
                  [good_file] empty_world _)).
  - vm_compute. reflexivity.
  - left.
Defined.

(** The claim of C1 fails on the code: after the loader fails on
    ["bad.pdf"], [add_to_db] has raised and the scratch file is still
    there. *)
Lemma scratch_file_left_after_load_failure :
  fst (add_to_db pdf_load encode decode embed [bad_file] empty_world)
  = Raise (LoadError "./temp/bad.pdf")
  /\ fs (snd (add_to_db pdf_load encode decode embed [bad_file] empty_world))
       !! "./temp/bad.pdf" = Some [].
Proof. split; vm_compute; reflexivity. Qed.

(** A batch of three in which the second document does not load: the
    first is in the store, the third is not. *)
Lemma add_to_db_stops_at_load_failure_witness :
  exists w2,
    add_to_db pdf_load encode decode embed [good_file; bad_file; good_file] empty_world
    = (Raise (LoadError "./temp/bad.pdf"), w2)
    /\ length (db w2) = 1.
Proof.
  destruct (add_to_db_stops_at_load_failure pdf_load encode decode embed
              [good_file] bad_file [good_file] empty_world
              (snd (for_each (add_file_to_db pdf_load encode decode embed)
                      [good_file] empty_world)))
    as (w2 & Hrun & Hdb & _).
  - vm_compute. reflexivity.
  - reflexivity.
  - exists w2. split; [exact Hrun|]. rewrite Hdb. vm_compute. reflexivity.
Defined.

(** The claim of C2 fails on the code: ["good.pdf"] is ingested when it is
    uploaded alone, and is not when it follows a document that does not
    load. *)
Lemma load_failure_aborts_batch :
  fst (add_to_db pdf_load encode decode embed [bad_file; good_file] empty_world)
  = Raise (LoadError "./temp/bad.pdf")
  /\ db (snd (add_to_db pdf_load encode decode embed [bad_file; good_file] empty_world))
     = []
  /\ length (db (snd (add_to_db pdf_load encode decode embed [good_file] empty_world)))
     = 1.
Proof. repeat split; vm_compute; reflexivity. Qed.

(** The claim of C3 fails on the code: a query made of one space is not
    turned away; both collaborators are called and nothing is shown. *)
Lemma whitespace_query_reaches_collaborators :
  PyStr.whitespace_only " " = true
  /\ calls (snd (on_submit embed similarity generate " " empty_world))
     = [EmbedCall " ";
        GenerateCall
          (template_head +:+ EmptyString +:+ template_middle +:+ " "
           +:+ template_tail)
          None 1]
  /\ ui (snd (on_submit embed similarity generate " " empty_world)) = [].
Proof. repeat split; vm_compute; reflexivity. Qed.

(** A search with [k = 5] in a store of two records. *)
Lemma db_search_returns_top_k_witness :
  exists found w',
    db_search embed similarity "abcd" 5 two_records = (Ok found, w')
    /\ length found = 2.
Proof.
  destruct (db_search_returns_top_k embed similarity "abcd" [4%Z] 5 two_records)
    as (found & w' & Hrun & Hlen & _).
  - lia.
  - reflexivity.
  - exists found, w'. split; [exact Hrun|]. rewrite Hlen. reflexivity.
Defined.

(** The context of a query against the store of two records. *)
Lemma prompt_context_is_ranked_texts_witness :
  exists found w1,
    db_search embed similarity "abcd" 5 two_records = (Ok found, w1)
    /\ format_docs (map rec_doc found)
       = blank_line_separated (map (fun r => page_content (rec_doc r)) found).
Proof.
  destruct (prompt_context_is_ranked_texts embed similarity generate
              "abcd" [4%Z] two_records)
    as (found & w1 & Hrun & _ & Hctx & _).
  - reflexivity.
  - exists found, w1. split; [exact Hrun|exact Hctx].
Defined.

(** Two searches with another search and a whole query between them. *)
Lemma db_search_idempotent_witness :
  fst (db_search embed similarity "abcd" 5
         (run_ops pdf_load encode decode embed similarity generate
            [OpSearch "x" 3; OpRunRagChain "hello"]
            (snd (db_search embed similarity "abcd" 5 two_records))))
  = fst (db_search embed similarity "abcd" 5 two_records).
Proof.
  apply (db_search_idempotent pdf_load encode decode embed similarity generate
           [OpSearch "x" 3; OpRunRagChain "hello"] "abcd" 5 two_records).
  reflexivity.
Defined.

(** With two records of equal score the contract of the search is met by
    two different results: which one a search returns is a matter of how
    it breaks ties. *)
Lemma search_contract_leaves_ties_open :
  ranked_top_k similarity [4%Z] 1 (db two_records) [record 0 3 "abc"]
  /\ ranked_top_k similarity [4%Z] 1 (db two_records) [record 1 5 "abcde"].
Proof.
  split; (split; [reflexivity|]); (split; [repeat constructor|]).
  - exists [record 1 5 "abcde"]. split; [done|].
    intros r r' ->%list_elem_of_singleton ->%list_elem_of_singleton.
    vm_compute. discriminate.
  - exists [record 0 3 "abc"]. split; [apply Permutation_swap|].
    intros r r' ->%list_elem_of_singleton ->%list_elem_of_singleton.
    vm_compute. discriminate.
Qed.

(** A record of the store of two is still found after an ingestion and a
    search. *)
Lemma inserted_records_stay_retrievable_witness :
  exists found w',
    db_search embed similarity "abcd" 10
      (run_ops pdf_load encode decode embed similarity generate
         [OpAddToDb [good_file]; OpSearch "x" 1] two_records)
    = (Ok found, w')
    /\ record 0 3 "abc" ∈ found.
Proof.
  apply (inserted_records_stay_retrievable pdf_load encode decode embed
           similarity generate
           [OpAddToDb [good_file]; OpSearch "x" 1] (record 0 3 "abc")
           "abcd" [4%Z] 10 two_records).
  - left.
  - reflexivity.
  - vm_compute. lia.
Defined.

(** A query against the empty store: the model is called all the same. *)
Lemma empty_retrieval_still_calls_model_witness :
  calls (snd (run_rag_chain embed similarity generate "abcd" empty_world))
  = [EmbedCall "abcd";
     GenerateCall
       (template_head +:+ EmptyString +:+ template_middle +:+ "abcd"
        +:+ template_tail)
       None 1].
Proof.
  destruct (empty_retrieval_still_calls_model embed similarity generate "abcd"
              empty_world (set_calls [EmbedCall "abcd"] empty_world))
    as (_ & _ & Hcalls).
  - reflexivity.
  - rewrite Hcalls. reflexivity.
Defined.


(** * Further properties of the program *)

(** ** [format_docs] *)

Lemma string_length_app (a b : string) :
  String.length (a +:+ b) = String.length a + String.length b.
Proof.
  induction a as [|x a IH]; [done|].
  change (S (String.length (a +:+ b)) = S (String.length a + String.length b)).
  by rewrite IH.
Qed.

Lemma join_rest_app sep (l1 l2 : list string) :
  PyStr.join_rest sep (l1 ++ l2)
  = PyStr.join_rest sep l1 +:+ PyStr.join_rest sep l2.
Proof.
  induction l1 as [|t l1 IH]; [done|].
  cbn [app PyStr.join_rest]. by rewrite IH, !string_app_assoc.
Qed.

Lemma join_rest_length sep (l : list string) :
  String.length (PyStr.join_rest sep l)
  = sum_list (map String.length l) + String.length sep * length l.
Proof.
  induction l as [|t l IH]; [simpl; lia|].
  cbn [PyStr.join_rest map sum_list length sum_list_with].
  rewrite !string_length_app, IH. unfold id. lia.
Qed.

(** X1: the context block of two non-empty lists of documents put one
    after the other is the block of the first, a blank line, and the block
    of the second. *)
Theorem format_docs_app (docs1 docs2 : list Document) :
  docs1 <> [] -> docs2 <> [] ->
  format_docs (docs1 ++ docs2)
  = format_docs docs1 +:+ PyStr.LF +:+ PyStr.LF +:+ format_docs docs2.
Proof.
  intros H1 H2. destruct docs1 as [|d1 docs1]; [done|].
  destruct docs2 as [|d2 docs2]; [done|].
  unfold format_docs. rewrite map_app. cbn [map app PyStr.join].
  rewrite join_rest_app. cbn [PyStr.join_rest].
  by rewrite !string_app_assoc.
Qed.

(** X2: the context block is as long as the texts together plus two
    characters for each of the gaps between them; nothing is trimmed and
    an empty text still takes its place between two separators. *)
Theorem format_docs_length (docs : list Document) :
  String.length (format_docs docs)
  = sum_list (map (fun d => String.length (page_content d)) docs)
    + 2 * (length docs - 1).
Proof.
  unfold format_docs. destruct docs as [|d docs]; [done|].
  cbn [map PyStr.join sum_list sum_list_with length].
  rewrite string_length_app, join_rest_length, length_map, map_map.
  change (String.length (PyStr.LF +:+ PyStr.LF)) with 2. unfold id. lia.
Qed.

(** ** Paths of the scratch files *)






Lemma temp_file_path_of_absolute (file : UploadedFile) :
  PyStr.starts_with_slash (name file) = true ->
  temp_file_path_of file = name file.
Proof.
  intros Habs. unfold temp_file_path_of, PyStr.os_path_join. by rewrite Habs.
Qed.

(** ** What the operations leave alone *)

Lemma preserves_modify {X} (proj : World -> X) (f : World -> World) :
  (forall w, proj (f w) = proj w) -> preserves proj (modify f).
Proof. intros H w. apply H. Qed.

Section Coverage.

Context (pdf_load : string -> list Byte.byte -> option (list Document)).
Context (encode : string -> list Token) (decode : list Token -> string).
Context (embed : string -> option Vec).
Context (similarity : Vec -> Vec -> Z).
Context (generate : string -> option string -> Z -> string + GenError).

Lemma db_add_documents_keeps {X} (proj : World -> X) chunks :
  (forall d w, proj (set_db d w) = proj w) ->
  (forall c w, proj (set_calls c w) = proj w) ->
  preserves proj (db_add_documents embed chunks).
Proof.
  intros Hdb Hcalls. induction chunks as [|c chunks IH]; cbn [db_add_documents].
  - apply preserves_ret.
  - apply preserves_bind; [by apply preserves_call_embed|]. intros v.
    apply preserves_bind; [|intros _; exact IH].
    apply preserves_modify. intros w. apply Hdb.
Qed.

(** Ingesting a file touches the file system, the directories, the store
    and the call log, and nothing else. *)
Lemma add_file_to_db_keeps {X} (proj : World -> X) file :
  (forall f w, proj (set_fs f w) = proj w) ->
  (forall d w, proj (set_dirs d w) = proj w) ->
  (forall d w, proj (set_db d w) = proj w) ->
  (forall c w, proj (set_calls c w) = proj w) ->
  preserves proj (add_file_to_db pdf_load encode decode embed file).
Proof.
  intros Hfs Hdirs Hdb Hcalls. unfold add_file_to_db.
  apply preserves_bind; [apply preserves_modify; intros w; apply Hdirs|]. intros _.
  apply preserves_bind; [apply preserves_modify; intros w; apply Hfs|]. intros _.
  apply preserves_bind; [apply preserves_loader_load|]. intros data.
  apply preserves_bind; [by apply db_add_documents_keeps|]. intros _.
  by apply preserves_os_remove.
Qed.

(** A query changes the call log and nothing else. *)
Lemma run_rag_chain_world query w :
  snd (run_rag_chain embed similarity generate query w)
  = set_calls
      (calls w
       ++ EmbedCall query
          :: match embed query with
             | Some qv =>
                 [GenerateCall
                    (render PROMPT_TEMPLATE
                       (chain_inputs
                          (format_docs (map rec_doc (top_k similarity qv 5 (db w))))
                          query))
                    (session_state w !! "gemini_api_key") 1]
             | None => []
             end)
      w.
Proof.
  destruct (embed query) as [qv|] eqn:Hq.
  - rewrite (run_rag_chain_ok embed similarity generate query qv w Hq). done.
  - unfold run_rag_chain, retriever, db_search, bind, gets, call_embed.
    rewrite Hq. done.
Qed.

Lemma run_op_session_state o w :
  session_state (run_op pdf_load encode decode embed similarity generate o w)
  = session_state w.
Proof.
  destruct o as [query k|query|chunks|files]; cbn [run_op].
  - unfold db_search, bind, gets, call_embed. by destruct (embed query).
  - by rewrite run_rag_chain_world.
  - by apply db_add_documents_keeps.
  - destruct files as [|f files]; [done|].
    apply (preserves_for_each session_state). intros file.
    by apply add_file_to_db_keeps.
Qed.

Lemma run_ops_session_state ops w :
  session_state (run_ops pdf_load encode decode embed similarity generate ops w)
  = session_state w.
Proof.
  revert w. induction ops as [|o ops IH]; intros w; [done|].
  unfold run_ops in *. cbn [foldl]. rewrite IH. apply run_op_session_state.
Qed.

(** *** Files *)

Lemma add_file_to_db_raise_files file w e w' :
  add_file_to_db pdf_load encode decode embed file w = (Raise e, w') ->
  fs w' = <[temp_file_path_of file := getbuffer file]> (fs w).
Proof.
  unfold add_file_to_db, bind at 1 2 3. simpl.
  unfold loader_load at 1. simpl. rewrite lookup_insert_eq.
  destruct (pdf_load _ _) as [data|].
  - set (w1 := set_fs _ _). unfold bind.
    pose proof (db_add_documents_fs embed
      (create_documents encode decode 100 50 (map page_content data) (map metadata data)) w1) as Hfs.
    destruct (db_add_documents _ _ w1) as [[[]|e'] w2].
    + simpl in Hfs. unfold os_remove. rewrite Hfs. subst w1. simpl.
      by rewrite lookup_insert_eq.
    + intros [= _ <-]. simpl in Hfs. by rewrite Hfs.
  - by intros [= _ <-].
Qed.

(** X4: an upload whose name starts with a slash is not kept under
    ["./temp"]: [os.path.join] drops the directory and the scratch file is
    the path the name spells.  Whatever that path held is lost: after a
    successful ingestion there is no file there, after a failed one the
    bytes of the upload are. *)
Theorem absolute_name_escapes_temp file w :
  PyStr.starts_with_slash (name file) = true ->
  temp_file_path_of file = name file
  /\ match add_to_db pdf_load encode decode embed [file] w with
     | (Ok _, w') => fs w' !! name file = None
     | (Raise _, w') => fs w' !! name file = Some (getbuffer file)
     end.
Proof.
  intros Habs. pose proof (temp_file_path_of_absolute file Habs) as Hpath.
  split; [done|]. unfold add_to_db. cbn [for_each]. unfold bind.
  destruct (add_file_to_db pdf_load encode decode embed file w)
    as [[[]|e] w1] eqn:Hrun; unfold ret.
  - rewrite (add_file_to_db_ok_fs _ _ _ _ _ _ _ Hrun), Hpath.
    apply lookup_delete_eq.
  - rewrite (add_file_to_db_raise_files _ _ _ _ Hrun), Hpath.
    apply lookup_insert_eq.
Qed.

(** *** What an ingestion stores *)

Lemma create_documents_pages (data : list Document) :
  create_documents encode decode 100 50 (map page_content data) (map metadata data)
  = chunks_of_pages encode decode data.
Proof.
  unfold create_documents, chunks_of_pages.
  induction data as [|pg data IH]; [done|].
  cbn [map zip_with concat]. by rewrite IH.
Qed.

Lemma add_file_to_db_ok_db file w w' :
  add_file_to_db pdf_load encode decode embed file w = (Ok tt, w') ->
  exists data records,
    pdf_load (temp_file_path_of file) (getbuffer file) = Some data
    /\ db w' = db w ++ records
    /\ map rec_doc records = chunks_of_pages encode decode data.
Proof.
  unfold add_file_to_db, bind at 1 2 3. simpl.
  unfold loader_load at 1. simpl. rewrite lookup_insert_eq.
  destruct (pdf_load _ _) as [data|]; [|done].
  set (w1 := set_fs _ _). unfold bind.
  destruct (db_add_documents _ _ w1) as [[[]|e] w2] eqn:Hadd; [|done].
  apply db_add_documents_appends in Hadd as (records & Hdb & Hdocs).
  unfold os_remove. destruct (fs w2 !! _); [|done]. intros [= <-].
  exists data, records. split; [done|]. split; [exact Hdb|].
  by rewrite Hdocs, create_documents_pages.
Qed.

(** X6: when the ingestion of one upload returns, the loader was given
    the scratch path and exactly the bytes of the upload, whatever the
    path held before, and the store has gained one record per chunk of
    the loaded pages: in page order, then chunk order, each chunk with the
    metadata of the page it was cut from.  No page is lost when the texts
    and the metadata, taken apart, are paired again. *)
Theorem add_file_to_db_stores_chunks file w w' :
  add_file_to_db pdf_load encode decode embed file w = (Ok tt, w') ->
  exists data records,
    pdf_load (temp_file_path_of file) (getbuffer file) = Some data
    /\ db w' = db w ++ records
    /\ map rec_doc records = chunks_of_pages encode decode data.
Proof. apply add_file_to_db_ok_db. Qed.

Lemma for_each_add_file_ok_db files w w' :
  for_each (add_file_to_db pdf_load encode decode embed) files w = (Ok tt, w') ->
  exists pages records,
    Forall2 (fun file data =>
               pdf_load (temp_file_path_of file) (getbuffer file) = Some data)
            files pages
    /\ db w' = db w ++ records
    /\ map rec_doc records = concat (map (chunks_of_pages encode decode) pages).
Proof.
  revert w. induction files as [|f files IH]; intros w; cbn [for_each].
  - intros [= <-]. exists [], []. split; [constructor|]. by rewrite app_nil_r.
  - unfold bind at 1.
    destruct (add_file_to_db _ _ _ _ f w) as [[[]|e] w1] eqn:Hone; [|done].
    intros Hrest.
    apply add_file_to_db_ok_db in Hone as (data & recs1 & Hload & Hdb1 & Hdocs1).
    destruct (IH _ Hrest) as (pages & recs2 & Hloads & Hdb2 & Hdocs2).
    exists (data :: pages), (recs1 ++ recs2).
    split; [by constructor|]. split.
    + by rewrite Hdb2, Hdb1, app_assoc.
    + rewrite map_app, Hdocs1, Hdocs2. done.
Qed.

(** X14: when [add_to_db] returns, every upload of the batch was loaded
    and the store has gained, after the records it held, the chunks of
    the uploads in upload order (within an upload: page order, then chunk
    order).  Nothing is compared with what the store holds: the same
    upload twice in a batch gives its chunks twice. *)
Theorem add_to_db_stores_batch files w w' :
  add_to_db pdf_load encode decode embed files w = (Ok tt, w') ->
  exists pages records,
    Forall2 (fun file data =>
               pdf_load (temp_file_path_of file) (getbuffer file) = Some data)
            files pages
    /\ db w' = db w ++ records
    /\ map rec_doc records = concat (map (chunks_of_pages encode decode) pages).
Proof.
  destruct files as [|f files].
  - intros [= <-]. exists [], []. split; [constructor|]. by rewrite app_nil_r.
  - apply for_each_add_file_ok_db.
Qed.

(** *** Queries *)

(** X8: when the embedding of a non-empty query fails, the model is not
    called, nothing is written on the page, and the failure leaves the
    "Submit" branch as the exception it was. *)
Theorem on_submit_embedding_failure query w :
  PyStr.truthy query = true ->
  embed query = None ->
  on_submit embed similarity generate query w
  = (Raise (QueryError query), set_calls (calls w ++ [EmbedCall query]) w).
Proof.
  intros Hq Hembed. unfold on_submit. rewrite Hq. cbn [negb].
  unfold bind at 1, run_rag_chain, retriever, db_search, bind, gets, call_embed.
  by rewrite Hembed.
Qed.

(** X9: for a non-empty query the embedding function accepts, the
    "Submit" branch writes the text the model returned, as it is, and
    nothing else; when the model fails nothing is written and the model's
    failure leaves the branch. *)
Theorem on_submit_shows_answer query qv w :
  PyStr.truthy query = true ->
  embed query = Some qv ->
  let docs := map rec_doc (top_k similarity qv 5 (db w)) in
  let prompt := render PROMPT_TEMPLATE (chain_inputs (format_docs docs) query) in
  let key := session_state w !! "gemini_api_key" in
  let w1 :=
    set_calls (calls w ++ [EmbedCall query; GenerateCall prompt key 1]) w in
  on_submit embed similarity generate query w
  = match generate prompt key 1 with
    | inl text => (Ok tt, set_ui (ui w ++ [StWrite text]) w1)
    | inr e => (Raise (ModelError e), w1)
    end.
Proof.
  intros Hq Hembed. cbv zeta. unfold on_submit. rewrite Hq. cbn [negb].
  unfold bind. rewrite (run_rag_chain_ok embed similarity generate query qv w Hembed).
  cbv zeta. by destruct (generate _ _ _).
Qed.

(** *** The API key *)

(** X10: a non-empty key saved under "Enter" is the credential of every
    later query: whatever searches, queries, inserts and ingestions come
    in between, the model is called with that key. *)
Theorem entered_key_is_used ops key query qv w :
  PyStr.truthy key = true ->
  embed query = Some qv ->
  let w1 :=
    run_ops pdf_load encode decode embed similarity generate ops
      (snd (on_enter key w)) in
  exists prompt,
    calls (snd (run_rag_chain embed similarity generate query w1))
    = calls w1 ++ [EmbedCall query; GenerateCall prompt (Some key) 1].
Proof.
  intros Hkey Hembed. cbv zeta.
  rewrite (run_rag_chain_ok embed similarity generate query qv _ Hembed).
  cbv zeta. cbn [snd calls set_calls].
  rewrite run_ops_session_state. unfold on_enter. rewrite Hkey.
  unfold st_success, bind, modify. cbn [snd session_state set_ui set_session_state].
  rewrite lookup_insert_eq. by eexists.
Qed.

Lemma on_submit_keeps {X} (proj : World -> X) query :
  (forall c w, proj (set_calls c w) = proj w) ->
  (forall u w, proj (set_ui u w) = proj w) ->
  preserves proj (on_submit embed similarity generate query).
Proof.
  intros Hcalls Hui. unfold on_submit.
  destruct (negb (PyStr.truthy query)).
  - apply preserves_modify. intros w. apply Hui.
  - apply preserves_bind.
    + intros w. rewrite run_rag_chain_world. apply Hcalls.
    + intros result. apply preserves_modify. intros w. apply Hui.
Qed.

Lemma add_to_db_keeps {X} (proj : World -> X) files :
  (forall f w, proj (set_fs f w) = proj w) ->
  (forall d w, proj (set_dirs d w) = proj w) ->
  (forall d w, proj (set_db d w) = proj w) ->
  (forall c w, proj (set_calls c w) = proj w) ->
  files <> [] ->
  preserves proj (add_to_db pdf_load encode decode embed files).
Proof.
  intros Hfs Hdirs Hdb Hcalls Hne. destruct files as [|f files]; [done|].
  apply (preserves_for_each proj). intros file. by apply add_file_to_db_keeps.
Qed.

Lemma on_process_keeps {X} (proj : World -> X) docs :
  (forall f w, proj (set_fs f w) = proj w) ->
  (forall d w, proj (set_dirs d w) = proj w) ->
  (forall d w, proj (set_db d w) = proj w) ->
  (forall c w, proj (set_calls c w) = proj w) ->
  (forall u w, proj (set_ui u w) = proj w) ->
  preserves proj (on_process pdf_load encode decode embed docs).
Proof.
  intros Hfs Hdirs Hdb Hcalls Hui. destruct docs as [|f docs].
  - apply preserves_modify. intros w. apply Hui.
  - unfold on_process. apply preserves_bind; [by apply add_to_db_keeps|].
    intros _. apply preserves_modify. intros w. apply Hui.
Qed.

(** X11: one run of the script changes the session state in one way
    only: under "Enter", with a non-empty key, which it stores under
    ["gemini_api_key"].  An empty key is never stored and a stored key is
    never removed. *)
Theorem main_session_state wd w :
  let w' := snd (main pdf_load encode decode embed similarity generate wd w) in
  session_state w' = session_state w
  \/ (enter_clicked wd = true
      /\ PyStr.truthy (key_text wd) = true
      /\ session_state w'
         = <["gemini_api_key" := key_text wd]> (session_state w)).
Proof.
  cbv zeta. unfold main.
  assert (preserves session_state
            (when (submit_clicked wd)
               (on_submit embed similarity generate (query_text wd)))) as Hsubmit.
  { unfold when. destruct (submit_clicked wd); [by apply on_submit_keeps|done]. }
  assert (preserves session_state
            (when (process_clicked wd)
               (on_process pdf_load encode decode embed (pdf_docs wd)))) as Hprocess.
  { unfold when. destruct (process_clicked wd); [by apply on_process_keeps|done]. }
  revert Hsubmit Hprocess.
  generalize (when (submit_clicked wd)
                (on_submit embed similarity generate (query_text wd))).
  generalize (when (process_clicked wd)
                (on_process pdf_load encode decode embed (pdf_docs wd))).
  intros process submit Hsubmit Hprocess.
  unfold bind, when. specialize (Hsubmit w).
  destruct (submit w) as [[[]|e] w1]; cbn [snd] in *; [|by left].
  destruct (enter_clicked wd); [|left; unfold ret; simpl; by rewrite Hprocess].
  unfold on_enter. destruct (PyStr.truthy (key_text wd)) eqn:Hkey.
  - right. split; [done|]. split; [done|].
    unfold st_success, bind, modify. simpl. rewrite Hprocess. simpl.
    by rewrite Hsubmit.
  - left. unfold st_warning, modify. simpl. rewrite Hprocess. simpl. done.
Qed.

(** *** The page *)

(** X12: for a non-empty upload list, the "Submit & Process" branch shows
    the success message exactly when [add_to_db] returned, and then
    nothing else; when [add_to_db] raises, the branch raises the same
    exception and the page is as it was. *)
Theorem on_process_page file files w :
  on_process pdf_load encode decode embed (file :: files) w
  = match add_to_db pdf_load encode decode embed (file :: files) w with
    | (Ok _, w1) =>
        (Ok tt,
         set_ui
           (ui w
            ++ [StSuccess ":file_folder: Documents successfully added to the database!"])
           w1)
    | (Raise e, w1) => (Raise e, w1)
    end
  /\ ui (snd (add_to_db pdf_load encode decode embed (file :: files) w)) = ui w.
Proof.
  assert (ui (snd (add_to_db pdf_load encode decode embed (file :: files) w)) = ui w)
    as Hui by (by apply add_to_db_keeps).
  split; [|exact Hui]. unfold on_process, bind.
  destruct (add_to_db _ _ _ _ (file :: files) w) as [[[]|e] w1]; [|done].
  cbn [snd] in Hui. unfold st_success, modify. by rewrite Hui.
Qed.

Lemma quiet_preserves {A} (m : M A) : preserves ui m -> quiet m.
Proof. intros Hm w. exists []. by rewrite Hm, app_nil_r. Qed.

Lemma quiet_bind {A B} (m : M A) (k : A -> M B) :
  quiet m -> (forall a, quiet (k a)) -> quiet (bind m k).
Proof.
  intros Hm Hk w. unfold bind. destruct (Hm w) as (shown1 & Hui1 & Hok1).
  destruct (m w) as [[a|e] w1]; cbn [snd] in *; [|by exists shown1].
  destruct (Hk a w1) as (shown2 & Hui2 & Hok2).
  exists (shown1 ++ shown2). rewrite Hui2, Hui1, app_assoc.
  split; [done|]. by apply Forall_app.
Qed.

Lemma quiet_show (e : UiEvent) :
  not_error e -> quiet (modify (fun w => set_ui (ui w ++ [e]) w)).
Proof. intros He w. exists [e]. split; [done|]. by apply Forall_singleton. Qed.

(** X13: no run of the script calls [st.error].  The message "No files
    uploaded!" of [add_to_db] cannot appear: the "Submit & Process"
    branch tests the upload list before it calls [add_to_db], and shows a
    warning instead. *)
Theorem main_never_reports_error wd w :
  exists shown,
    ui (snd (main pdf_load encode decode embed similarity generate wd w))
    = ui w ++ shown
    /\ Forall not_error shown.
Proof.
  revert w. change (quiet (main pdf_load encode decode embed similarity generate wd)).
  assert (forall b m, quiet m -> quiet (when b m)) as Hwhen.
  { intros [] m Hm; [exact Hm|]. by apply quiet_preserves. }
  unfold main. apply quiet_bind; [|intros _; apply quiet_bind; [|intros _]];
    apply Hwhen.
  - unfold on_submit. destruct (negb _); [by apply quiet_show|].
    apply quiet_bind; [|intros result; by apply quiet_show].
    apply quiet_preserves. intros w. by rewrite run_rag_chain_world.
  - unfold on_enter. destruct (PyStr.truthy _); [|by apply quiet_show].
    apply quiet_bind; [by apply quiet_preserves|]. intros _. by apply quiet_show.
  - destruct (pdf_docs wd) as [|f files]; [by apply quiet_show|].
    unfold on_process. apply quiet_bind; [|intros _; by apply quiet_show].
    by apply quiet_preserves, add_to_db_keeps.
Qed.

End Coverage.

(** * The further properties on the test doubles *)

(** Two documents and a third. *)
Lemma format_docs_app_witness :
  format_docs ([mkDocument "a" (mkMetadata "x.pdf" 0);
                mkDocument "b" (mkMetadata "x.pdf" 1)]
               ++ [mkDocument "c" (mkMetadata "y.pdf" 0)])
  = format_docs [mkDocument "a" (mkMetadata "x.pdf" 0);
                 mkDocument "b" (mkMetadata "x.pdf" 1)]
    +:+ PyStr.LF +:+ PyStr.LF
    +:+ format_docs [mkDocument "c" (mkMetadata "y.pdf" 0)].
Proof. apply format_docs_app; discriminate. Defined.


(** An upload named ["/srv/notes.pdf"] that does not load, over a file
    that was there. *)
Lemma absolute_name_escapes_temp_witness :
  fs (snd (add_to_db pdf_load encode decode embed
             [mkUploadedFile "/srv/notes.pdf" []]
             (set_fs {["/srv/notes.pdf" := [Byte.x41]]} empty_world)))
    !! "/srv/notes.pdf"
  = Some [].
Proof.
  destruct (absolute_name_escapes_temp pdf_load encode decode embed
              (mkUploadedFile "/srv/notes.pdf" [])
              (set_fs {["/srv/notes.pdf" := [Byte.x41]]} empty_world))
    as [_ Hfile].
  - reflexivity.
  - vm_compute in Hfile. vm_compute. exact Hfile.
Defined.

(** The one page of ["good.pdf"], in the empty store. *)
Lemma add_file_to_db_stores_chunks_witness :
  exists data records,
    pdf_load (temp_file_path_of good_file) (getbuffer good_file) = Some data
    /\ db (snd (add_file_to_db pdf_load encode decode embed good_file empty_world))
       = db empty_world ++ records
    /\ map rec_doc records = chunks_of_pages encode decode data.
Proof.
  apply (add_file_to_db_stores_chunks pdf_load encode decode embed good_file
           empty_world).
  vm_compute. reflexivity.
Defined.

(** A query while the embedding service is down. *)
Lemma on_submit_embedding_failure_witness :
  on_submit Faults.embed similarity generate "abcd" two_records
  = (Raise (QueryError "abcd"),
     set_calls (calls two_records ++ [EmbedCall "abcd"]) two_records).
Proof.
  apply (on_submit_embedding_failure Faults.embed similarity generate "abcd"
           two_records); reflexivity.
Defined.

(** A query that is answered. *)
Lemma on_submit_shows_answer_witness :
  ui (snd (on_submit embed similarity Faults.generate "abcd" two_records))
  = [StWrite "42"].
Proof.
  rewrite (on_submit_shows_answer embed similarity Faults.generate "abcd" [4%Z]
             two_records); reflexivity.
Defined.

(** A key, then an ingestion and a query, then the query that is looked
    at. *)
Lemma entered_key_is_used_witness :
  exists prompt,
    calls (snd (run_rag_chain embed similarity generate "abcd"
                  (run_ops pdf_load encode decode embed similarity generate
                     [OpAddToDb [good_file]; OpRunRagChain "x"]
                     (snd (on_enter "secret" empty_world)))))
    = calls (run_ops pdf_load encode decode embed similarity generate
               [OpAddToDb [good_file]; OpRunRagChain "x"]
               (snd (on_enter "secret" empty_world)))
      ++ [EmbedCall "abcd"; GenerateCall prompt (Some "secret") 1].
Proof.
  apply (entered_key_is_used pdf_load encode decode embed similarity generate
           [OpAddToDb [good_file]; OpRunRagChain "x"] "secret" "abcd" [4%Z]
           empty_world); reflexivity.
Defined.

(** The same upload twice: two records for its one chunk. *)
Lemma add_to_db_stores_batch_witness :
  exists pages records,
    Forall2 (fun file data =>
               pdf_load (temp_file_path_of file) (getbuffer file) = Some data)
            [good_file; good_file] pages
    /\ db (snd (add_to_db pdf_load encode decode embed [good_file; good_file]
                  empty_world))
       = db empty_world ++ records
    /\ map rec_doc records = concat (map (chunks_of_pages encode decode) pages).
Proof.
  apply (add_to_db_stores_batch pdf_load encode decode embed
           [good_file; good_file] empty_world).
  vm_compute. reflexivity.
Defined.
